(** * rvnsqlite: typed statement layer, lazy queries and the metadata envelope

    A shallow embedding of [src/sqlite.cpp], [include/query.h] and
    [resource_database.{h,cpp}].  C++ methods are computations in a state
    and exception monad; integers are [Z] with the conversions written out.

    The storage engine (sqlite3) is an external collaborator.  The wrappers
    are written against the interface [Engine], whose operations return the
    engine's result code and the new engine state, so what is proved of
    them alone holds whatever the engine answers.  The state is that of one
    open connection: opening and closing it is left to the engine.  A small
    reference engine ([RefEngine]) implements the part of the engine
    contract the repository relies on, so that whole scenarios (bind, step,
    fetch) can be evaluated and the envelope followed from a write to a
    read. *)

From Stdlib Require Import ZArith String Ascii List Lia DecimalString.
From stdpp Require Import base option list gmap strings.

Local Open Scope string_scope.
Local Open Scope Z_scope.

(* ------------------------------------------------------------------ *)
(** ** Fixed-width integers

    Values of the C++ integer types are integers [Z]; a conversion writes
    the wrap-around out. *)

Definition INT64_MAX : Z := 2 ^ 63 - 1.
Definition INT_MAX : Z := 2 ^ 31 - 1.

(** [static_cast<std::uint64_t>(z)] and unsigned 64-bit arithmetic. *)
Definition to_uint64 (z : Z) : Z := z mod 2 ^ 64.
(** [static_cast<std::int64_t>(z)], two's complement. *)
Definition to_int64 (z : Z) : Z := (z + 2 ^ 63) mod 2 ^ 64 - 2 ^ 63.
(** [static_cast<std::uint32_t>(z)]. *)
Definition to_uint32 (z : Z) : Z := z mod 2 ^ 32.
(** [static_cast<int>(z)], two's complement. *)
Definition to_int (z : Z) : Z := (z + 2 ^ 31) mod 2 ^ 32 - 2 ^ 31.

Definition is_uint64 (z : Z) : Prop := 0 <= z < 2 ^ 64.
Definition is_uint32 (z : Z) : Prop := 0 <= z < 2 ^ 32.
Definition is_int64 (z : Z) : Prop := - 2 ^ 63 <= z < 2 ^ 63.

(** [std::to_string] on an integer. *)
Definition to_string (z : Z) : string := NilZero.string_of_int (Z.to_int z).

(* ------------------------------------------------------------------ *)
(** ** sqlite.cpp, anonymous namespace: the slide encoding *)

(** [std::uint64_t{1} + std::numeric_limits<std::int64_t>::max()] *)
Definition signed_to_unsigned_offset : Z := to_uint64 (1 + INT64_MAX).

(** [return value - signed_to_unsigned_offset;]: the subtraction is done on
    [std::uint64_t], the result converted to [std::int64_t]. *)
Definition unsigned_to_signed_int64 (value : Z) : Z :=
  to_int64 (to_uint64 (value - signed_to_unsigned_offset)).

(** [return static_cast<uint64_t>(value) + signed_to_unsigned_offset;] *)
Definition signed_to_unsigned_int64 (value : Z) : Z :=
  to_uint64 (to_uint64 value + signed_to_unsigned_offset).

(* ------------------------------------------------------------------ *)
(** ** Exceptions and the state-and-exception monad *)

(** The exception classes of [sqlite.h] and [resource_database.h], with
    [std::logic_error]; each carries its [what()] message. *)
Inductive exception : Type :=
| DatabaseError (what : string)
| DatabaseNotFound (what : string)
| DatabaseBusy (what : string)
| OutOfBoundsError (what : string)
| WriteMetadataError (what : string)
| ReadMetadataError (what : string)
| logic_error (what : string).

(** What a handler [catch (DatabaseError&)] catches: the class and the
    classes derived from it. *)
Definition is_DatabaseError (e : exception) : bool :=
  match e with
  | DatabaseError _ | DatabaseNotFound _ | DatabaseBusy _ | OutOfBoundsError _ => true
  | WriteMetadataError _ | ReadMetadataError _ | logic_error _ => false
  end.

(** A call returns, throws, or has no defined behaviour (a null pointer or
    an empty optional is dereferenced). *)
Inductive outcome (A : Type) : Type :=
| Returns (a : A)
| Throws (e : exception)
| Undefined.
Arguments Returns {A} a.
Arguments Throws {A} e.
Arguments Undefined {A}.

(** A computation over a mutable state [S]; the state after a throw is the
    state at the point of the throw. *)
Definition St (S A : Type) : Type := S -> outcome A * S.

Definition ret {S A : Type} (a : A) : St S A := fun s => (Returns a, s).
Definition throw {S A : Type} (e : exception) : St S A := fun s => (Throws e, s).
Definition undefined {S A : Type} : St S A := fun s => (Undefined, s).

Definition bind {S A B : Type} (m : St S A) (k : A -> St S B) : St S B :=
  fun s =>
    match m s with
    | (Returns a, s') => k a s'
    | (Throws e, s') => (Throws e, s')
    | (Undefined, s') => (Undefined, s')
    end.

Notation "'let*' x ':=' m 'in' k" := (bind m (fun x => k))
  (at level 10, x name, m at level 100, k at level 200).
Notation "m ';;' k" := (bind m (fun _ => k))
  (at level 100, k at level 200, right associativity).

(** [try { m } catch (E&) { throw e'; }] for the handlers of this
    repository, which all rethrow a fixed exception. *)
Definition try_catch {S A : Type} (m : St S A) (catches : exception -> bool)
    (handler : exception) : St S A :=
  fun s =>
    match m s with
    | (Throws e, s') => if catches e then (Throws handler, s') else (Throws e, s')
    | r => r
    end.

(** Run [m], then the destructor [dtor] of an object that goes out of scope,
    on normal exit as well as while an exception unwinds the stack. *)
Definition finally {S A : Type} (m : St S A) (dtor : S -> S) : St S A :=
  fun s =>
    match m s with
    | (Returns a, s') => (Returns a, dtor s')
    | (Throws e, s') => (Throws e, dtor s')
    | (Undefined, s') => (Undefined, s')
    end.

(** Run [m]; if it throws, run the destructor [dtor] of an object that is
    destroyed while the exception unwinds the stack. *)
Definition unwind {S A : Type} (m : St S A) (dtor : S -> S) : St S A :=
  fun s =>
    match m s with
    | (Throws e, s') => (Throws e, dtor s')
    | r => r
    end.

(** The destruction of an object as a computation. *)
Definition destroy {S : Type} (dtor : S -> S) : St S unit := fun s => (Returns tt, dtor s).

(** The computation ends in an exception. *)
Definition signals_error {S A : Type} (m : St S A) (s : S) : Prop :=
  exists e, fst (m s) = Throws e.

(** A computation on one component of a pair of states. *)
Definition on_snd {O S A : Type} (m : St S A) : St (O * S) A :=
  fun os => let '(r, s') := m (snd os) in (r, (fst os, s')).
Definition get_fst {O S : Type} : St (O * S) O := fun os => (Returns (fst os), os).
Definition put_fst {O S : Type} (o : O) : St (O * S) unit :=
  fun os => (Returns tt, (o, snd os)).

(* ------------------------------------------------------------------ *)
(** ** The engine interface

    Result codes and type codes of [sqlite3.h]. *)

Definition SQLITE_OK : Z := 0.
Definition SQLITE_ERROR : Z := 1.
Definition SQLITE_BUSY : Z := 5.
Definition SQLITE_MISUSE : Z := 21.
Definition SQLITE_RANGE : Z := 25.
Definition SQLITE_ROW : Z := 100.
Definition SQLITE_DONE : Z := 101.

Definition SQLITE_INTEGER : Z := 1.
Definition SQLITE_FLOAT : Z := 2.
Definition SQLITE_TEXT : Z := 3.
Definition SQLITE_BLOB : Z := 4.
Definition SQLITE_NULL : Z := 5.

Definition SQLITE_UTF8 : Z := 1.

(** The lifetime flag of a text or blob binding. *)
Inductive destructor_type : Type := SQLITE_STATIC | SQLITE_TRANSIENT.

(** A [sqlite3_stmt*]: the handle of a prepared statement. *)
Abbreviation sqlite3_stmt := positive (only parsing).

(** The calls the wrappers make on one open connection; [W] is the state of
    the engine (the database and its prepared statements).  A buffer
    argument [(pointer, length)] is the byte sequence behind the pointer
    together with the length passed. *)
Class Engine (W : Type) : Type := {
  sqlite3_errstr : Z -> string;
  sqlite3_exec : string -> W -> Z * W;
  sqlite3_prepare_v2 : string -> W -> Z * sqlite3_stmt * W;
  sqlite3_finalize : sqlite3_stmt -> W -> Z * W;
  sqlite3_bind_int64 : sqlite3_stmt -> Z -> Z -> W -> Z * W;
  sqlite3_bind_int : sqlite3_stmt -> Z -> Z -> W -> Z * W;
  sqlite3_bind_text : sqlite3_stmt -> Z -> string -> Z -> destructor_type -> W -> Z * W;
  sqlite3_bind_text64 :
    sqlite3_stmt -> Z -> string -> Z -> destructor_type -> Z -> W -> Z * W;
  sqlite3_bind_blob : sqlite3_stmt -> Z -> list Byte.byte -> Z -> destructor_type -> W -> Z * W;
  sqlite3_bind_blob64 : sqlite3_stmt -> Z -> list Byte.byte -> Z -> destructor_type -> W -> Z * W;
  sqlite3_bind_null : sqlite3_stmt -> Z -> W -> Z * W;
  sqlite3_column_type : sqlite3_stmt -> Z -> W -> Z;
  sqlite3_column_int64 : sqlite3_stmt -> Z -> W -> Z;
  sqlite3_column_int : sqlite3_stmt -> Z -> W -> Z;
  (** [None] is the null pointer; otherwise the bytes before the
      terminator the engine appends. *)
  sqlite3_column_text : sqlite3_stmt -> Z -> W -> option string;
  sqlite3_column_blob : sqlite3_stmt -> Z -> W -> option (list Byte.byte);
  sqlite3_column_bytes : sqlite3_stmt -> Z -> W -> Z;
  sqlite3_step : sqlite3_stmt -> W -> Z * W;
  sqlite3_reset : sqlite3_stmt -> W -> Z * W;
  sqlite3_clear_bindings : sqlite3_stmt -> W -> Z * W;
  sqlite3_table_column_metadata : string -> string -> W -> Z;
}.


(** An engine call as a computation returning its result code. *)
Definition call {W : Type} (f : W -> Z * W) : St W Z :=
  fun w => let '(rc, w') := f w in (Returns rc, w').

(** The bytes a [const char*] designates as a C string: those before the
    first NUL. *)
Fixpoint c_str (buffer : string) : string :=
  match buffer with
  | EmptyString => EmptyString
  | String c rest => if Ascii.eqb c Ascii.zero then EmptyString else String c (c_str rest)
  end.

(** A pure read of the state as a computation. *)
Definition read {S A : Type} (f : S -> A) : St S A := fun s => (Returns (f s), s).
(** A read that may throw or be undefined. *)
Definition read_outcome {S A : Type} (f : S -> outcome A) : St S A := fun s => (f s, s).

(** [if (sqlite_result)]: an integer used as a condition. *)
Definition nonzero (sqlite_result : Z) : bool := negb (sqlite_result =? 0).

(* ------------------------------------------------------------------ *)
(** ** sqlite.cpp: [Database] and [Statement] *)

(** [Statement::StepResult] *)
Inductive StepResult : Type := Done | Row.

Definition StepResult_eqb (a b : StepResult) : bool :=
  match a, b with
  | Done, Done | Row, Row => true
  | _, _ => false
  end.

(** [Statement::Type] *)
Inductive Type_ : Type := Integer | Float | Text | Blob | Null.

(** [class Statement]: its only member is the owning pointer [stmt_]. *)
Record Statement : Type := { stmt_ : sqlite3_stmt }.

Section Sqlite.
Context {W : Type} {engine : Engine W}.

(** [Statement::Type to_type(int sqlite_type)] *)
Definition to_type (sqlite_type : Z) : outcome Type_ :=
  if sqlite_type =? SQLITE_INTEGER then Returns Integer
  else if sqlite_type =? SQLITE_FLOAT then Returns Float
  else if sqlite_type =? SQLITE_TEXT then Returns Text
  else if sqlite_type =? SQLITE_BLOB then Returns Blob
  else if sqlite_type =? SQLITE_NULL then Returns Null
  else Throws (logic_error ("Unknown sqlite type (" ++ to_string sqlite_type ++ "!")).

(** [Database::exec] *)
Definition Database_exec (command error_message : string) : St W unit :=
  let* sqlite_result := call (sqlite3_exec command) in
  if nonzero sqlite_result
  then throw (DatabaseError (error_message ++ " " ++ sqlite3_errstr sqlite_result))
  else ret tt.

(** [Statement::Statement(Database& db, const char* stmt_str)] *)
Definition Statement_ctor (stmt_str : string) : St W Statement :=
  fun w =>
    let '(sqlite_result, stmt, w') := sqlite3_prepare_v2 stmt_str w in
    if nonzero sqlite_result
    then (Throws (DatabaseError ("Can't prepare query statement: "
                                 ++ sqlite3_errstr sqlite_result)), w')
    else (Returns {| stmt_ := stmt |}, w').

(** [~Statement()]: the deleter of [stmt_] is [sqlite3_finalize]; the result
    code it returns is dropped by the [void] deleter type. *)
Definition Statement_dtor (this : Statement) : W -> W :=
  fun w => snd (sqlite3_finalize (stmt_ this) w).

(** The tail common to the integer, text and blob binding methods:
    [if (sqlite_result) throw DatabaseError("Can't bind "s + name + ": " + ...)]. *)
Definition bind_result (sqlite_result : Z) (name : string) : St W unit :=
  if nonzero sqlite_result
  then throw (DatabaseError ("Can't bind " ++ name ++ ": " ++ sqlite3_errstr sqlite_result))
  else ret tt.

(** [bind_arg_cast(int, std::uint64_t, const char* name)] *)
Definition bind_arg_cast_u64 (this : Statement) (index value : Z) (name : string) : St W unit :=
  let* sqlite_result := call (sqlite3_bind_int64 (stmt_ this) index (to_int64 value)) in
  bind_result sqlite_result name.

(** [bind_arg_throw(int, std::uint64_t, const char* name)] *)
Definition bind_arg_throw_u64 (this : Statement) (index value : Z) (name : string) : St W unit :=
  if value >? to_uint64 INT64_MAX
  then throw (OutOfBoundsError ("Value (" ++ to_string value ++ ") in binding is out of bounds"))
  else
    let* sqlite_result := call (sqlite3_bind_int64 (stmt_ this) index (to_int64 value)) in
    bind_result sqlite_result name.

(** [bind_arg_slide(int, std::uint64_t, const char* name)] *)
Definition bind_arg_slide (this : Statement) (index value : Z) (name : string) : St W unit :=
  let* sqlite_result :=
    call (sqlite3_bind_int64 (stmt_ this) index (unsigned_to_signed_int64 value)) in
  bind_result sqlite_result name.

(** [bind_arg(int, std::int64_t, const char* name)] *)
Definition bind_arg_i64 (this : Statement) (index value : Z) (name : string) : St W unit :=
  let* sqlite_result := call (sqlite3_bind_int64 (stmt_ this) index value) in
  bind_result sqlite_result name.

(** [bind_arg_extend(int, std::uint32_t, const char* name)] *)
Definition bind_arg_extend_u32 (this : Statement) (index value : Z) (name : string) : St W unit :=
  let* sqlite_result := call (sqlite3_bind_int64 (stmt_ this) index (to_int64 value)) in
  bind_result sqlite_result name.

(** [bind_arg_cast(int, std::uint32_t, const char* name)] *)
Definition bind_arg_cast_u32 (this : Statement) (index value : Z) (name : string) : St W unit :=
  let* sqlite_result := call (sqlite3_bind_int (stmt_ this) index (to_int value)) in
  bind_result sqlite_result name.

(** [bind_arg_throw(int, uint32_t, const char* name)]; the [int] it casts to is
    widened to the [sqlite_int64] parameter of [sqlite3_bind_int64]. *)
Definition bind_arg_throw_u32 (this : Statement) (index value : Z) (name : string) : St W unit :=
  if value >? to_uint32 INT_MAX
  then throw (OutOfBoundsError ("Value (" ++ to_string value ++ ") in binding is out of bounds"))
  else
    let* sqlite_result := call (sqlite3_bind_int64 (stmt_ this) index (to_int value)) in
    bind_result sqlite_result name.

(** [bind_arg(int, int32_t, const char* name)] *)
Definition bind_arg_i32 (this : Statement) (index value : Z) (name : string) : St W unit :=
  let* sqlite_result := call (sqlite3_bind_int (stmt_ this) index value) in
  bind_result sqlite_result name.

(** [bind_arg_extend(int index, uint16_t value, const char* name)] *)
Definition bind_arg_extend_u16 (this : Statement) (index value : Z) (name : string)
    : St W unit :=
  let* sqlite_result := call (sqlite3_bind_int (stmt_ this) index (to_int value)) in
  bind_result sqlite_result name.

(** [bind_arg_extend(int index, uint8_t value, const char* name)] *)
Definition bind_arg_extend_u8 (this : Statement) (index value : Z) (name : string)
    : St W unit :=
  let* sqlite_result := call (sqlite3_bind_int (stmt_ this) index (to_int value)) in
  bind_result sqlite_result name.

(** [bind_arg_extend(int index, int16_t value, const char* name)] *)
Definition bind_arg_extend_i16 (this : Statement) (index value : Z) (name : string)
    : St W unit :=
  let* sqlite_result := call (sqlite3_bind_int (stmt_ this) index (to_int value)) in
  bind_result sqlite_result name.

(** [bind_arg_extend(int index, int8_t value, const char* name)] *)
Definition bind_arg_extend_i8 (this : Statement) (index value : Z) (name : string)
    : St W unit :=
  let* sqlite_result := call (sqlite3_bind_int (stmt_ this) index (to_int value)) in
  bind_result sqlite_result name.

(** [bind_text_impl] *)
Definition bind_text_impl (this : Statement) (index : Z) (value : string) (size : Z)
    (name : string) (is_transient : bool) : St W unit :=
  if size >? INT_MAX then
    let* sqlite_result :=
      call (sqlite3_bind_text64 (stmt_ this) index value size
              (if is_transient then SQLITE_TRANSIENT else SQLITE_STATIC) SQLITE_UTF8) in
    bind_result sqlite_result name
  else
    let* sqlite_result :=
      call (sqlite3_bind_text (stmt_ this) index value (to_int size)
              (if is_transient then SQLITE_TRANSIENT else SQLITE_STATIC)) in
    bind_result sqlite_result name.

(** [bind_blob_impl] *)
Definition bind_blob_impl (this : Statement) (index : Z) (value : list Byte.byte) (size : Z)
    (name : string) (is_transient : bool) : St W unit :=
  if size >? INT_MAX then
    let* sqlite_result :=
      call (sqlite3_bind_blob64 (stmt_ this) index value size
              (if is_transient then SQLITE_TRANSIENT else SQLITE_STATIC)) in
    bind_result sqlite_result name
  else
    let* sqlite_result :=
      call (sqlite3_bind_blob (stmt_ this) index value (to_int size)
              (if is_transient then SQLITE_TRANSIENT else SQLITE_STATIC)) in
    bind_result sqlite_result name.



(** [bind_text_without_copy(int, const char*, std::size_t, const char* name)] *)
Definition bind_text_without_copy_n (this : Statement) (index : Z) (value : string)
    (size : Z) (name : string) : St W unit :=
  bind_text_impl this index value size name false.

(** [bind_text_without_copy(int, const std::string&, const char* name)] *)
Definition bind_text_without_copy (this : Statement) (index : Z) (value : string)
    (name : string) : St W unit :=
  bind_text_without_copy_n this index value (Z.of_nat (String.length value)) name.



(** [bind_null] *)
Definition bind_null (this : Statement) (index : Z) (name : string) : St W unit :=
  let* sqlite_result := call (sqlite3_bind_null (stmt_ this) index) in
  if nonzero sqlite_result
  then throw (DatabaseError ("Can't bind null to " ++ name ++ ": "
                             ++ sqlite3_errstr sqlite_result))
  else ret tt.

(** [column_type] *)
Definition column_type (this : Statement) (column : Z) (w : W) : outcome Type_ :=
  to_type (sqlite3_column_type (stmt_ this) column w).

(** [column_i64] *)
Definition column_i64 (this : Statement) (column : Z) (w : W) : Z :=
  sqlite3_column_int64 (stmt_ this) column w.

(** [column_u64] *)
Definition column_u64 (this : Statement) (column : Z) (w : W) : Z :=
  to_uint64 (sqlite3_column_int64 (stmt_ this) column w).

(** [column_u64_slide] *)
Definition column_u64_slide (this : Statement) (column : Z) (w : W) : Z :=
  signed_to_unsigned_int64 (sqlite3_column_int64 (stmt_ this) column w).

(** [column_i32] *)
Definition column_i32 (this : Statement) (column : Z) (w : W) : Z :=
  sqlite3_column_int (stmt_ this) column w.

(** [column_u32] *)
Definition column_u32 (this : Statement) (column : Z) (w : W) : Z :=
  to_uint32 (sqlite3_column_int (stmt_ this) column w).

(** [column_text]: [std::string(const char* s)] reads a C string, and is
    undefined on the null pointer. *)
Definition column_text (this : Statement) (column : Z) (w : W) : outcome string :=
  match sqlite3_column_text (stmt_ this) column w with
  | Some buffer => Returns (c_str buffer)
  | None => Undefined
  end.

(** [column_blob]: the pointer, and the [int] length as a [std::size_t]. *)
Definition column_blob (this : Statement) (column : Z) (w : W)
    : option (list Byte.byte) * Z :=
  (sqlite3_column_blob (stmt_ this) column w,
   to_uint64 (sqlite3_column_bytes (stmt_ this) column w)).

(** [Statement::step] *)
Definition step (this : Statement) : St W StepResult :=
  let* sqlite_result := call (sqlite3_step (stmt_ this)) in
  if sqlite_result =? SQLITE_ROW then ret Row
  else if sqlite_result =? SQLITE_DONE then ret Done
  else if sqlite_result =? SQLITE_BUSY
  then throw (DatabaseBusy ("Database busy: " ++ sqlite3_errstr sqlite_result))
  else if sqlite_result =? SQLITE_MISUSE
  then throw (logic_error ("Statement misuse: " ++ sqlite3_errstr sqlite_result))
  else throw (DatabaseError ("Database error: " ++ sqlite3_errstr sqlite_result)).

(** [Statement::reset]: the result of [sqlite3_reset] is not looked at. *)
Definition reset (this : Statement) : St W unit :=
  fun w => (Returns tt, snd (sqlite3_reset (stmt_ this) w)).

(** [Statement::clear_bindings]: likewise for [sqlite3_clear_bindings]. *)
Definition clear_bindings (this : Statement) : St W unit :=
  fun w => (Returns tt, snd (sqlite3_clear_bindings (stmt_ this) w)).

(** A [Statement] declared in a block: constructed, used by [body] and
    destroyed when the block is left. *)
Definition with_Statement {A : Type} (stmt_str : string) (body : Statement -> St W A)
    : St W A :=
  let* stmt := Statement_ctor stmt_str in
  finally (body stmt) (Statement_dtor stmt).

End Sqlite.

(* ------------------------------------------------------------------ *)
(** ** query.h: [Query<T, F>] and its iterator *)

(** A [Query*]: the address of a [Query] object. *)
Abbreviation QueryPtr := positive (only parsing).

(** [Query::Iterator]: [query_] is null ([None]) for the end iterator. *)
Record Iterator : Type := { query_ : option QueryPtr }.

(** [Iterator::operator==] compares the two pointers. *)
Definition Iterator_eqb (a b : Iterator) : bool := bool_decide (query_ a = query_ b).

Section Query.
Context {W : Type} {engine : Engine W} {T : Type}.

(** The members of [Query<T, F>]; the decoder [f_] reads the row the
    statement is on. *)
Record Query : Type := {
  current_ : option T;
  fetch_stmt_ : option Statement;
  f_ : Statement -> W -> T;
}.

(** [Query::finished] *)
Definition finished (q : Query) : bool :=
  match fetch_stmt_ q with
  | Some _ => false
  | None => true
  end.

(** [Query::end] *)
Definition end_ : Iterator := {| query_ := None |}.

(** [Query::current], for the query at address [this]. *)
Definition current (this : QueryPtr) (q : Query) : Iterator :=
  if finished q then end_ else {| query_ := Some this |}.

(** [Query::begin] *)
Definition begin (this : QueryPtr) (q : Query) : Iterator := current this q.

(** [Query::Query(sqlite::Statement stmt, F f)].  The statement moves into
    [fetch_stmt_]; it is finalized when [fetch_stmt_] is emptied, and when
    [step] throws and the members already built are destroyed. *)
Definition Query_ctor (stmt : Statement) (f : Statement -> W -> T) : St W Query :=
  unwind
    (let* r := step stmt in
     if StepResult_eqb r Row then
       let* c := read (f stmt) in
       ret {| current_ := Some c; fetch_stmt_ := Some stmt; f_ := f |}
     else
       destroy (Statement_dtor stmt) ;;
       ret {| current_ := None; fetch_stmt_ := None; f_ := f |})
    (Statement_dtor stmt).

(** [Iterator::operator*]: [*query_->current_]. *)
Definition Iterator_deref (it : Iterator) (q : Query) : outcome T :=
  match query_ it with
  | None => Undefined
  | Some _ =>
      match current_ q with
      | Some c => Returns c
      | None => Undefined
      end
  end.

(** [Iterator::operator++()], on the query the iterator points to.  The
    state is that query and the engine; the result is the iterator after
    the call. *)
Definition Iterator_preincrement (it : Iterator) : St (Query * W) Iterator :=
  match query_ it with
  | None => undefined
  | Some _ =>
      let* q := get_fst in
      match fetch_stmt_ q with
      | None => undefined
      | Some stmt =>
          let* r := on_snd (step stmt) in
          if StepResult_eqb r Row then
            let* c := on_snd (read (f_ q stmt)) in
            put_fst {| current_ := Some c; fetch_stmt_ := fetch_stmt_ q; f_ := f_ q |} ;;
            ret it
          else
            on_snd (destroy (Statement_dtor stmt)) ;;
            put_fst {| current_ := current_ q; fetch_stmt_ := None; f_ := f_ q |} ;;
            ret {| query_ := None |}
      end
  end.

(** [Iterator::operator++(int)]: [return ++Iterator( *this );]. *)
Definition Iterator_postincrement (it : Iterator) : St (Query * W) Iterator :=
  Iterator_preincrement it.

(** [std::vector<T>(first, last)] on input iterators:
    [for (; first != last; ++first) push_back( *first );].  The loop has no
    bound of its own; [None] is returned when [fuel] runs out first. *)
Fixpoint collect (fuel : nat) (first last : Iterator) : St (Query * W) (option (list T)) :=
  if Iterator_eqb first last then ret (Some nil)
  else
    match fuel with
    | O => ret None
    | S fuel' =>
        let* q := get_fst in
        let* x := read_outcome (fun _ => Iterator_deref first q) in
        let* first' := Iterator_preincrement first in
        let* rest := collect fuel' first' last in
        ret (option_map (cons x) rest)
    end.

(** The statement [h], stepped from the engine state [w], produces a row in
    each state of [ws], in this order, and then reports the end of its rows
    in [w_end]. *)
Inductive yields (h : sqlite3_stmt) : W -> list W -> W -> Prop :=
| yields_done (w w_end : W) :
    sqlite3_step h w = (SQLITE_DONE, w_end) -> yields h w nil w_end
| yields_row (w w1 : W) (ws : list W) (w_end : W) :
    sqlite3_step h w = (SQLITE_ROW, w1) -> yields h w1 ws w_end ->
    yields h w (w1 :: ws) w_end.

(** The states a [Query] goes through: built by its constructor, then
    advanced through an iterator, from any engine state and whatever the
    outcome of the call. *)
Inductive reachable : Query -> Prop :=
| reachable_ctor (stmt : Statement) (f : Statement -> W -> T) (w w' : W) (q : Query) :
    Query_ctor stmt f w = (Returns q, w') -> reachable q
| reachable_increment (q q' : Query) (it : Iterator) (w w' : W)
    (r : outcome Iterator) :
    reachable q -> Iterator_preincrement it (q, w) = (r, (q', w')) -> reachable q'.

End Query.
Arguments Query : clear implicits.

(* ------------------------------------------------------------------ *)
(** ** resource_database.h, resource_database.cpp *)

(** [constexpr std::uint32_t metadata_version = 1;] *)
Definition metadata_version : Z := 1.

(** [class Metadata] *)
Record Metadata : Type := {
  type_ : Z;
  format_version_ : string;
  tool_name_ : string;
  tool_version_ : string;
  tool_info_ : string;
  generation_date_ : Z;
}.

(** [MetadataWriter::write] *)
Definition MetadataWriter_write (type : Z) (format_version tool_name tool_version
    tool_info : string) (generation_date : Z) : Metadata :=
  {| type_ := type; format_version_ := format_version; tool_name_ := tool_name;
     tool_version_ := tool_version; tool_info_ := tool_info;
     generation_date_ := generation_date |}.

(** [ResourceDatabase::VersionedMetadata] *)
Record VersionedMetadata : Type := { version : Z; metadata : Metadata }.

(** The members [ResourceDatabase] adds to [Database]; the connection itself
    is the engine state. *)
Record ResourceDatabase : Type := { md_ : Metadata; md_version_ : Z }.

Definition create_table_metadata_sql : string :=
  "create table _metadata (" ++
  "metadata_version int," ++
  "type int," ++
  "format_version text," ++
  "tool_name text," ++
  "tool_version text," ++
  "tool_info text," ++
  "generation_date int8" ++
  ");".

Definition insert_metadata_sql : string := "insert into _metadata values(?,?,?,?,?,?,?);".

Definition update_metadata_sql : string :=
  "update _metadata set " ++
  "metadata_version = ?," ++
  "type = ?," ++
  "format_version = ?," ++
  "tool_name = ?," ++
  "tool_version = ?," ++
  "tool_info = ?," ++
  "generation_date = ?" ++
  ";".

Definition select_metadata_sql : string := "select * from _metadata;".

Section ResourceDatabase.
Context {W : Type} {engine : Engine W}.

(** [write_metadata] of the anonymous namespace *)
Definition write_metadata (stmt : Statement) (metadata : Metadata) : St W unit :=
  bind_arg_cast_u32 stmt 2 (type_ metadata) "type" ;;
  bind_text_without_copy stmt 3 (format_version_ metadata) "format version" ;;
  bind_text_without_copy stmt 4 (tool_name_ metadata) "tool name" ;;
  bind_text_without_copy stmt 5 (tool_version_ metadata) "tool version" ;;
  bind_text_without_copy stmt 6 (tool_info_ metadata) "tool info" ;;
  bind_arg_cast_u64 stmt 7 (generation_date_ metadata) "generation date" ;;
  step stmt ;;
  ret tt.

(** [ResourceDatabase::create_metadata] *)
Definition create_metadata (metadata : Metadata) : St W unit :=
  try_catch
    (Database_exec create_table_metadata_sql "could not create metadata table!")
    is_DatabaseError
    (WriteMetadataError ("Could not create metadata. " ++
       "Either this is not a database or the metadata already exists")) ;;
  with_Statement insert_metadata_sql (fun stmt =>
    bind_arg_cast_u32 stmt 1 metadata_version "metadata version" ;;
    write_metadata stmt metadata).

(** [ResourceDatabase::update_metadata] *)
Definition update_metadata (metadata : Metadata) : St W unit :=
  with_Statement update_metadata_sql (fun stmt =>
    bind_arg_cast_u32 stmt 1 metadata_version "metadata version" ;;
    write_metadata stmt metadata).

(** [ResourceDatabase::read_metadata]; [column_counter++] is written out as
    the counter read and the counter after it. *)
Definition read_metadata : St W VersionedMetadata :=
  try_catch
    (with_Statement select_metadata_sql (fun stmt =>
       let* r := step stmt in
       if negb (StepResult_eqb r Row)
       then throw (ReadMetadataError "Ill-formed metadata: no metadata entry")
       else
         let column_counter := 0 in
         let* found :=
           read (sqlite3_table_column_metadata "_metadata" "metadata_version") in
         let* versioned :=
           (if found =? SQLITE_OK then
              let* metadata_version' := read (column_u32 stmt column_counter) in
              if metadata_version' >? metadata_version
              then throw (ReadMetadataError "Metadata version in the future")
              else ret (metadata_version', to_uint32 (column_counter + 1))
            else ret (0, column_counter)) in
         let metadata_version' := fst versioned in
         let column_counter := snd versioned in
         let* md_type := read (column_u32 stmt column_counter) in
         let column_counter := to_uint32 (column_counter + 1) in
         let* md_format_version := read_outcome (column_text stmt column_counter) in
         let column_counter := to_uint32 (column_counter + 1) in
         let* md_tool_name := read_outcome (column_text stmt column_counter) in
         let column_counter := to_uint32 (column_counter + 1) in
         let* tool_version_counter :=
           (if metadata_version' >=? 1 then
              let* s := read_outcome (column_text stmt column_counter) in
              ret (s, to_uint32 (column_counter + 1))
            else ret ("1.0.0-prerelease", column_counter)) in
         let md_tool_version := fst tool_version_counter in
         let column_counter := snd tool_version_counter in
         let* md_tool_info := read_outcome (column_text stmt column_counter) in
         let column_counter := to_uint32 (column_counter + 1) in
         let* md_generation_date := read (column_u64 stmt column_counter) in
         let* r := step stmt in
         if negb (StepResult_eqb r Done)
         then throw (ReadMetadataError "Ill-formed metadata: multiple metadata entries")
         else
           ret {| version := metadata_version';
                  metadata :=
                    {| type_ := md_type; format_version_ := md_format_version;
                       tool_name_ := md_tool_name; tool_version_ := md_tool_version;
                       tool_info_ := md_tool_info;
                       generation_date_ := md_generation_date |} |}))
    is_DatabaseError
    (ReadMetadataError "Missing metadata. Is this a resource database?").

(** [ResourceDatabase::from_db] *)
Definition from_db : St W ResourceDatabase :=
  let* result := read_metadata in
  ret {| md_ := metadata result; md_version_ := version result |}.

(** [ResourceDatabase::convert_db] *)
Definition convert_db (metadata : Metadata) : St W ResourceDatabase :=
  create_metadata metadata ;;
  ret {| md_ := metadata; md_version_ := metadata_version |}.

(** [ResourceDatabase::set_metadata]; the state is the object and the
    engine. *)
Definition set_metadata (metadata : Metadata) : St (ResourceDatabase * W) unit :=
  let* this := get_fst in
  if negb (md_version_ this =? metadata_version)
  then throw (WriteMetadataError
                "Can't set the metadata with different metadata version than the current")
  else
    on_snd (update_metadata metadata) ;;
    put_fst {| md_ := metadata; md_version_ := md_version_ this |}.

End ResourceDatabase.

(* ------------------------------------------------------------------ *)
(** ** A reference engine

    An executable model of the engine contract the wrappers rely on: one
    connection, tables of rows, prepared statements with 1-based parameters
    and a cursor.  It understands the SQL texts of this repository and of
    its test helpers.  Columns are untyped and a value is stored as it was
    bound: the repository binds integers into its [int] and [int8] columns
    and text into its [text] columns, where the engine's type affinity
    changes nothing.  Identifiers are compared as written. *)

Module RefEngine.

Inductive value : Type :=
| VInteger (i : Z)
| VText (s : string)
| VBlob (b : list Byte.byte)
| VNull.

Record table : Type := { columns : list string; rows : list (list value) }.

Inductive program : Type :=
| CreateTable (name : string) (cols : list string)
| InsertValues (name : string) (arity : nat)
| UpdateSet (name : string) (cols : list string)
| Select (name : string) (cols : option (list string)).

Definition metadata_columns : list string :=
  ["metadata_version"; "type"; "format_version"; "tool_name"; "tool_version";
   "tool_info"; "generation_date"]%list.

(** The columns of the version-0 schema of the [_metadata] table. *)
Definition legacy_metadata_columns : list string :=
  ["type"; "format_version"; "tool_name"; "tool_info"; "generation_date"]%list.

(** The statements the engine compiles.  The declared types of the columns
    are not kept, and no column affinity is applied when a row is stored:
    the engine stores a value as it was bound.  This is what SQLite does
    for integers, blobs and NULL in any column of these tables, and for
    texts in the columns declared [text]; a text stored in a column
    declared [int] or [int8] is outside of what the engine describes. *)
Definition parse (sql : string) : option program :=
  if String.eqb sql create_table_metadata_sql
  then Some (CreateTable "_metadata" metadata_columns)
  else if String.eqb sql insert_metadata_sql then Some (InsertValues "_metadata" 7)
  else if String.eqb sql update_metadata_sql then Some (UpdateSet "_metadata" metadata_columns)
  else if String.eqb sql select_metadata_sql then Some (Select "_metadata" None)
  else if String.eqb sql "Create table test (x int8);" then Some (CreateTable "test" ["x"]%list)
  else if String.eqb sql "insert into test values (?);" then Some (InsertValues "test" 1)
  else if String.eqb sql "select x from test;" then Some (Select "test" (Some ["x"]%list))
  else None.

(** The number of [?] parameters of a statement. *)
Definition arity (p : program) : nat :=
  match p with
  | CreateTable _ _ => 0
  | InsertValues _ n => n
  | UpdateSet _ cols => length cols
  | Select _ _ => 0
  end.

Fixpoint index_of (c : string) (cols : list string) : option nat :=
  match cols with
  | nil => None
  | c' :: rest => if String.eqb c c' then Some O else option_map S (index_of c rest)
  end.

Definition has_column (c : string) (cols : list string) : bool :=
  match index_of c cols with Some _ => true | None => false end.

(** Whether a statement compiles against the schema. *)
Definition compiles (p : program) (ts : gmap string table) : bool :=
  match p with
  | CreateTable name _ => match ts !! name with Some _ => false | None => true end
  | InsertValues name n =>
      match ts !! name with Some t => Nat.eqb (length (columns t)) n | None => false end
  | UpdateSet name cols =>
      match ts !! name with
      | Some t => forallb (fun c => has_column c (columns t)) cols
      | None => false
      end
  | Select name None => match ts !! name with Some _ => true | None => false end
  | Select name (Some cols) =>
      match ts !! name with
      | Some t => forallb (fun c => has_column c (columns t)) cols
      | None => false
      end
  end.

(** [set c = ?] for each column of [cols], paired with its parameter. *)
Fixpoint assign (cols_of_table cols : list string) (params : list value)
    (row : list value) : list value :=
  match cols, params with
  | c :: cols', v :: params' =>
      assign cols_of_table cols' params'
        (match index_of c cols_of_table with
         | Some i => <[i := v]> row
         | None => row
         end)
  | _, _ => row
  end.

(** The columns a [select] returns from a row. *)
Definition project (cols_of_table : list string) (cols : option (list string))
    (row : list value) : list value :=
  match cols with
  | None => row
  | Some cs =>
      map (fun c => match index_of c cols_of_table with
                    | Some i => default VNull (row !! i)
                    | None => VNull
                    end) cs
  end.

(** A statement that returns no row, run to its end. *)
Definition execute (p : program) (params : list value) (ts : gmap string table)
    : Z * gmap string table :=
  match p with
  | CreateTable name cols =>
      match ts !! name with
      | Some _ => (SQLITE_ERROR, ts)
      | None => (SQLITE_DONE, <[name := {| columns := cols; rows := nil |}]> ts)
      end
  | InsertValues name _ =>
      match ts !! name with
      | Some t =>
          (SQLITE_DONE,
           <[name := {| columns := columns t; rows := (rows t ++ [params])%list |}]> ts)
      | None => (SQLITE_ERROR, ts)
      end
  | UpdateSet name cols =>
      match ts !! name with
      | Some t =>
          (SQLITE_DONE,
           <[name := {| columns := columns t;
                        rows := map (assign (columns t) cols params) (rows t) |}]> ts)
      | None => (SQLITE_ERROR, ts)
      end
  | Select _ _ => (SQLITE_DONE, ts)
  end.

(** Where a prepared statement is: not stepped since it was prepared or
    reset, on a row (with the index of the next one), or at its end. *)
Inductive cursor : Type :=
| Ready
| AtRow (next : nat) (row : list value)
| Halted.

Record vdbe : Type := {
  prog : program;
  params : list value;
  pc : cursor;
  (** the result code of the last [sqlite3_step] if it failed, else 0 *)
  step_rc : Z;
}.

Record world : Type := {
  tables : gmap string table;
  stmts : gmap positive vdbe;
  next_stmt : positive;
  (** another connection holds the lock on the database *)
  busy : bool;
}.

(** A private database just opened: [Database::from_memory()]. *)
Definition from_memory : world :=
  {| tables := ∅; stmts := ∅; next_stmt := 1%positive; busy := false |}.

Definition set_tables (ts : gmap string table) (w : world) : world :=
  {| tables := ts; stmts := stmts w; next_stmt := next_stmt w; busy := busy w |}.
Definition set_stmt (h : positive) (v : vdbe) (w : world) : world :=
  {| tables := tables w; stmts := <[h := v]> (stmts w); next_stmt := next_stmt w;
     busy := busy w |}.
(** A statement just compiled gets the next handle. *)
Definition new_stmt (p : program) (w : world) : world :=
  {| tables := tables w;
     stmts := <[next_stmt w := {| prog := p; params := replicate (arity p) VNull;
                                  pc := Ready; step_rc := 0 |}]> (stmts w);
     next_stmt := Pos.succ (next_stmt w);
     busy := busy w |}.
(** A statement finalized gives its handle up. *)
Definition drop_stmt (h : positive) (w : world) : world :=
  {| tables := tables w; stmts := delete h (stmts w); next_stmt := next_stmt w;
     busy := busy w |}.

(** [sqlite3_errstr].  The texts depend on the release of SQLite; the one
    for [SQLITE_RANGE] is the text [test_fail_bind] expects, which later
    releases shorten to [column index out of range]. *)
Definition errstr (rc : Z) : string :=
  if rc =? SQLITE_OK then "not an error"
  else if rc =? SQLITE_ERROR then "SQL logic error"
  else if rc =? SQLITE_BUSY then "database is locked"
  else if rc =? SQLITE_MISUSE then "bad parameter or other API misuse"
  else if rc =? SQLITE_RANGE then "bind or column index out of range"
  else if rc =? SQLITE_ROW then "another row available"
  else if rc =? SQLITE_DONE then "no more rows available"
  else "unknown error".

Definition exec (sql : string) (w : world) : Z * world :=
  match parse sql with
  | None => (SQLITE_ERROR, w)
  | Some p =>
      if busy w then (SQLITE_BUSY, w)
      else if compiles p (tables w) then
        let '(rc, ts) := execute p (replicate (arity p) VNull) (tables w) in
        (if rc =? SQLITE_DONE then SQLITE_OK else rc, set_tables ts w)
      else (SQLITE_ERROR, w)
  end.

Definition prepare (sql : string) (w : world) : Z * sqlite3_stmt * world :=
  match parse sql with
  | None => (SQLITE_ERROR, 1%positive, w)
  | Some p =>
      if busy w then (SQLITE_BUSY, 1%positive, w)
      else if compiles p (tables w) then (SQLITE_OK, next_stmt w, new_stmt p w)
      else (SQLITE_ERROR, 1%positive, w)
  end.

(** Finalizing reports the failure of the last step, if any. *)
Definition finalize (h : sqlite3_stmt) (w : world) : Z * world :=
  match stmts w !! h with
  | None => (SQLITE_OK, w)
  | Some v => (step_rc v, drop_stmt h w)
  end.

(** Binding is refused on a statement that was stepped and not reset, and
    outside the parameters of the statement. *)
Definition bind_value (h : sqlite3_stmt) (index : Z) (x : value) (w : world) : Z * world :=
  match stmts w !! h with
  | None => (SQLITE_MISUSE, w)
  | Some v =>
      match pc v with
      | Ready =>
          if (1 <=? index) && (index <=? Z.of_nat (length (params v))) then
            (SQLITE_OK,
             set_stmt h {| prog := prog v;
                           params := <[Z.to_nat (index - 1) := x]> (params v);
                           pc := Ready; step_rc := step_rc v |} w)
          else (SQLITE_RANGE, w)
      | _ => (SQLITE_MISUSE, w)
      end
  end.

(** The statement after a value is bound to a parameter. *)
Definition bound (index : Z) (x : value) (v : vdbe) : vdbe :=
  {| prog := prog v; params := <[Z.to_nat (index - 1) := x]> (params v); pc := Ready;
     step_rc := step_rc v |}.

(** The bytes of a text binding: [n] bytes, or the C string when [n] is
    negative. *)
Definition text_of_buffer (buffer : string) (n : Z) : string :=
  if n <? 0 then c_str buffer else String.substring 0 (Z.to_nat n) buffer.

(** The next row of a [select], if any. *)
Definition fetch (v : vdbe) (i : nat) (ts : gmap string table) : Z * vdbe :=
  match prog v with
  | Select name cols =>
      match ts !! name with
      | Some t =>
          match rows t !! i with
          | Some row =>
              (SQLITE_ROW,
               {| prog := prog v; params := params v;
                  pc := AtRow (S i) (project (columns t) cols row); step_rc := 0 |})
          | None =>
              (SQLITE_DONE,
               {| prog := prog v; params := params v; pc := Halted; step_rc := 0 |})
          end
      | None =>
          (SQLITE_ERROR,
           {| prog := prog v; params := params v; pc := Halted; step_rc := SQLITE_ERROR |})
      end
  | _ =>
      (SQLITE_MISUSE,
       {| prog := prog v; params := params v; pc := Halted; step_rc := SQLITE_MISUSE |})
  end.

(** Stepping a statement that is at its end and was not reset is a misuse,
    as [sqlite.h] documents. *)
Definition step_stmt (h : sqlite3_stmt) (w : world) : Z * world :=
  match stmts w !! h with
  | None => (SQLITE_MISUSE, w)
  | Some v =>
      if busy w then
        (SQLITE_BUSY,
         set_stmt h {| prog := prog v; params := params v; pc := pc v;
                       step_rc := SQLITE_BUSY |} w)
      else
        match pc v with
        | Halted => (SQLITE_MISUSE, w)
        | AtRow next _ => let '(rc, v') := fetch v next (tables w) in (rc, set_stmt h v' w)
        | Ready =>
            match prog v with
            | Select _ _ => let '(rc, v') := fetch v O (tables w) in (rc, set_stmt h v' w)
            | p =>
                let '(rc, ts) := execute p (params v) (tables w) in
                (rc,
                 set_stmt h {| prog := p; params := params v; pc := Halted;
                               step_rc := if rc =? SQLITE_DONE then 0 else rc |}
                   (set_tables ts w))
            end
        end
  end.

(** Resetting rewinds the statement, keeps its bindings, and reports the
    failure of the last step, if any. *)
Definition reset_stmt (h : sqlite3_stmt) (w : world) : Z * world :=
  match stmts w !! h with
  | None => (SQLITE_MISUSE, w)
  | Some v =>
      (step_rc v,
       set_stmt h {| prog := prog v; params := params v; pc := Ready; step_rc := 0 |} w)
  end.

Definition clear_bindings_stmt (h : sqlite3_stmt) (w : world) : Z * world :=
  match stmts w !! h with
  | None => (SQLITE_MISUSE, w)
  | Some v =>
      (SQLITE_OK,
       set_stmt h {| prog := prog v; params := replicate (length (params v)) VNull;
                     pc := pc v; step_rc := step_rc v |} w)
  end.

(** The value of a column of the current row; NULL when there is none. *)
Definition column_value (h : sqlite3_stmt) (column : Z) (w : world) : value :=
  match stmts w !! h with
  | Some v =>
      match pc v with
      | AtRow _ row =>
          if 0 <=? column then default VNull (row !! Z.to_nat column) else VNull
      | _ => VNull
      end
  | None => VNull
  end.

(** The engine state is on [row] of the statement [h]. *)
Definition on_row (h : sqlite3_stmt) (row : list value) (w : world) : Prop :=
  forall column : Z, 0 <= column ->
    column_value h column w = default VNull (row !! Z.to_nat column).

Definition is_space (c : ascii) : bool :=
  let n := nat_of_ascii c in Nat.eqb n 32 || (Nat.leb 9 n && Nat.leb n 13).

Definition digit_of (c : ascii) : option Z :=
  let n := nat_of_ascii c in
  if Nat.leb 48 n && Nat.leb n 57 then Some (Z.of_nat (n - 48)) else None.

Fixpoint skip_spaces (s : string) : string :=
  match s with
  | String c rest => if is_space c then skip_spaces rest else s
  | EmptyString => s
  end.

Fixpoint leading_digits (s : string) (acc : Z) : Z :=
  match s with
  | String c rest =>
      match digit_of c with
      | Some d => leading_digits rest (10 * acc + d)
      | None => acc
      end
  | EmptyString => acc
  end.

(** The integer a text converts to: its longest integer prefix, after any
    white space, kept within the signed 64-bit range; 0 when there is none. *)
Definition integer_of_text (s : string) : Z :=
  match skip_spaces s with
  | String "-" rest => Z.max (- 2 ^ 63) (- leading_digits rest 0)
  | String "+" rest => Z.min INT64_MAX (leading_digits rest 0)
  | s' => Z.min INT64_MAX (leading_digits s' 0)
  end.

Definition value_type (x : value) : Z :=
  match x with
  | VInteger _ => SQLITE_INTEGER
  | VText _ => SQLITE_TEXT
  | VBlob _ => SQLITE_BLOB
  | VNull => SQLITE_NULL
  end.

Definition value_int64 (x : value) : Z :=
  match x with
  | VInteger i => i
  | VText s => integer_of_text s
  | VBlob b => integer_of_text (string_of_list_byte b)
  | VNull => 0
  end.

Definition value_text (x : value) : option string :=
  match x with
  | VInteger i => Some (to_string i)
  | VText s => Some s
  | VBlob b => Some (string_of_list_byte b)
  | VNull => None
  end.

(** A zero-length blob is returned as the null pointer. *)
Definition value_blob (x : value) : option (list Byte.byte) :=
  match value_text x with
  | Some s => if Nat.eqb (String.length s) 0 then None else Some (list_byte_of_string s)
  | None => None
  end.

Definition value_bytes (x : value) : Z :=
  match value_text x with
  | Some s => Z.of_nat (String.length s)
  | None => 0
  end.

(** A named column exists.  (The names of the row id, which every table
    also answers to, are not among those this repository asks for.) *)
Definition table_column_metadata (tbl col : string) (w : world) : Z :=
  match tables w !! tbl with
  | Some t => if has_column col (columns t) then SQLITE_OK else SQLITE_ERROR
  | None => SQLITE_ERROR
  end.

(** The buffer of a text or blob binding is the bytes a pointer points to:
    a call with a null pointer, which SQLite binds as NULL, is not
    described. *)
#[global] Instance engine : Engine world := {
  sqlite3_errstr := errstr;
  sqlite3_exec := exec;
  sqlite3_prepare_v2 := prepare;
  sqlite3_finalize := finalize;
  sqlite3_bind_int64 h index x := bind_value h index (VInteger x);
  sqlite3_bind_int h index x := bind_value h index (VInteger x);
  sqlite3_bind_text h index buffer n _ := bind_value h index (VText (text_of_buffer buffer n));
  sqlite3_bind_text64 h index buffer n _ _ :=
    bind_value h index (VText (String.substring 0 (Z.to_nat n) buffer));
  sqlite3_bind_blob h index buffer n _ :=
    bind_value h index (VBlob (firstn (Z.to_nat n) buffer));
  sqlite3_bind_blob64 h index buffer n _ :=
    bind_value h index (VBlob (firstn (Z.to_nat n) buffer));
  sqlite3_bind_null h index := bind_value h index VNull;
  sqlite3_column_type h column w := value_type (column_value h column w);
  sqlite3_column_int64 h column w := value_int64 (column_value h column w);
  sqlite3_column_int h column w := to_int (value_int64 (column_value h column w));
  sqlite3_column_text h column w := value_text (column_value h column w);
  sqlite3_column_blob h column w := value_blob (column_value h column w);
  sqlite3_column_bytes h column w := value_bytes (column_value h column w);
  sqlite3_step := step_stmt;
  sqlite3_reset := reset_stmt;
  sqlite3_clear_bindings := clear_bindings_stmt;
  sqlite3_table_column_metadata := table_column_metadata;
}.

End RefEngine.

(* ------------------------------------------------------------------ *)
(** ** Scenarios of the test suite, on the reference engine *)

Module Scenario.
Import RefEngine.

(** [create_test_table], [get_insert_stmt] and [get_fetch_stmt] of
    [test_helpers.h]. *)
Definition create_test_table : St world unit :=
  Database_exec "Create table test (x int8);" "Could not create 'test' table".
Definition get_insert_stmt : St world Statement :=
  Statement_ctor "insert into test values (?);".
Definition get_fetch_stmt : St world Statement :=
  Statement_ctor "select x from test;".

(** The shape of [test_retrieve_db] and [test_insert_u64_to_i64]: one value
    is bound with [bind_] and inserted into a fresh table, then the row is
    fetched and its column read with [column_].  The insert statement is
    destroyed when the fetch statement is assigned over it. *)
Definition store_then_fetch
    (bind_ : Statement -> Z -> Z -> string -> St world unit)
    (column_ : Statement -> Z -> world -> Z) (val : Z) : St world Z :=
  create_test_table ;;
  let* statement := get_insert_stmt in
  bind_ statement 1 val "x" ;;
  step statement ;;
  let* fetch_statement := get_fetch_stmt in
  destroy (Statement_dtor statement) ;;
  step fetch_statement ;;
  read (column_ fetch_statement 0).

(** [fetch_value] of [test_query.cpp]: the [std::int64_t] column converted
    to the [std::uint64_t] result. *)
Definition fetch_value (stmt : Statement) (w : world) : Z := to_uint64 (column_i64 stmt 0 w).

(** The state the engine is in when another connection takes the lock. *)
Definition locked (w : world) : world :=
  {| tables := tables w; stmts := stmts w; next_stmt := next_stmt w; busy := true |}.

(** The engine after [create_test_table] and [get_insert_stmt] on a fresh
    database, and the statement prepared there. *)
Definition insert_ready : world := snd ((create_test_table ;; get_insert_stmt) from_memory).
Definition insert_statement : Statement := {| stmt_ := 1%positive |}.

(** The engine after a [step] of that statement which found the database
    locked. *)
Definition insert_refused : world := snd (step insert_statement (locked insert_ready)).

(** [test_iter_single] and [test_iter_double] up to the creation of the
    query: the engine with one row (42), with two rows (42, 21), and the
    fetch statement prepared there. *)
Definition one_row : world :=
  snd ((create_test_table ;;
        let* statement := get_insert_stmt in
        bind_arg_cast_u64 statement 1 42 "x" ;;
        step statement ;;
        get_fetch_stmt) from_memory).
Definition two_rows : world :=
  snd ((create_test_table ;;
        let* statement := get_insert_stmt in
        bind_arg_cast_u64 statement 1 42 "x" ;;
        step statement ;;
        reset statement ;;
        bind_arg_cast_u64 statement 1 21 "y" ;;
        step statement ;;
        get_fetch_stmt) from_memory).
Definition fetch_statement : Statement := {| stmt_ := 2%positive |}.

(** The engine states the fetch statement goes through. *)
Definition one_row_1 : world := snd (sqlite3_step 2%positive one_row).
Definition one_row_end : world := snd (sqlite3_step 2%positive one_row_1).
Definition two_rows_1 : world := snd (sqlite3_step 2%positive two_rows).
Definition two_rows_2 : world := snd (sqlite3_step 2%positive two_rows_1).
Definition two_rows_end : world := snd (sqlite3_step 2%positive two_rows_2).

(** The query of [test_iter_single] once built, and once advanced past its
    only row. *)
Definition single_query : Query world Z :=
  {| current_ := Some 42; fetch_stmt_ := Some fetch_statement; f_ := fetch_value |}.
Definition exhausted_query : Query world Z :=
  {| current_ := Some 42; fetch_stmt_ := None; f_ := fetch_value |}.

(** The row [create_metadata] and [update_metadata] bind: the current
    schema version, then the six fields. *)
Definition envelope_row (md : Metadata) : list value :=
  [VInteger (to_int metadata_version); VInteger (to_int (type_ md));
   VText (format_version_ md); VText (tool_name_ md); VText (tool_version_ md);
   VText (tool_info_ md); VInteger (to_int64 (generation_date_ md))].


(** A database written with the version-0 schema of the envelope. *)
Definition legacy_db : world :=
  {| tables :=
       {["_metadata" :=
           {| columns := legacy_metadata_columns;
              rows := [[VInteger 42; VText "1.0.0-dummy"; VText "TestMetaDataWriter";
                        VText "Tests version 1.0.0"; VInteger 42424242]] |}]};
     stmts := ∅; next_stmt := 1%positive; busy := false |}.

(** [TestMDWriter::dummy_md] of [test_resource.cpp]. *)
Definition dummy_md : Metadata :=
  MetadataWriter_write 42 "1.0.0-dummy" "TestMetaDataWriter" "1.0.0" "Tests version 1.0.0"
    42424242.


(** The engine once the value [x] was bound to the insert statement,
    inserted, and the fetch statement stepped onto the row. *)
Definition fetched (x : value) : world :=
  snd ((step insert_statement ;;
        let* fetch_statement := get_fetch_stmt in
        destroy (Statement_dtor insert_statement) ;;
        step fetch_statement)
         (set_stmt 1%positive
            {| prog := InsertValues "test" 1; params := [x]; pc := Ready; step_rc := 0 |}
            insert_ready)).




(** [TestMDWriter::dummy_md_2] of [test_resource.cpp]. *)
Definition dummy_md_2 : Metadata :=
  MetadataWriter_write 42 "1.0.0-dummy" "TestMetaDataWriter" "1.0.0" "Tests version 1.0.0"
    (42424242 + 1).

(** A database that holds only a [_metadata] table, with the columns
    [cols] and the rows [rs]. *)
Definition envelope_db (cols : list string) (rs : list (list value)) : world :=
  {| tables := {["_metadata" := {| columns := cols; rows := rs |}]};
     stmts := ∅; next_stmt := 1%positive; busy := false |}.

(** [ResourceDatabase::from_memory(dummy_md())], as [test_empty_db] and
    [test_set_metadata] build it: the engine once [create_metadata] ran on a
    database just opened. *)
Definition resource_db : world := snd (create_metadata dummy_md from_memory).


End Scenario.

Definition is_int32 (z : Z) : Prop := - 2 ^ 31 <= z < 2 ^ 31.

(** The computation keeps the property [I] of the state, however it ends. *)
Definition keeps {S A : Type} (I : S -> Prop) (m : St S A) : Prop :=
  forall s : S, I s -> I (snd (m s)).

(** The computation throws no exception outside of [allowed]. *)
Definition throws_only {S A : Type} (allowed : exception -> bool) (m : St S A) : Prop :=
  forall (s : S) (e : exception), fst (m s) = Throws e -> allowed e = true.

(** The exceptions [read_metadata] lets out. *)
Definition is_ReadMetadataError_or_logic_error (e : exception) : bool :=
  match e with
  | ReadMetadataError _ | logic_error _ => true
  | _ => false
  end.

(** What leaves the [try] block of [read_metadata] before its handler. *)
Definition in_read_block (e : exception) : bool :=
  is_DatabaseError e || is_ReadMetadataError_or_logic_error e.

(** What [read_metadata] and [create_metadata] throw from their handlers
    [catch (DatabaseError&)]. *)
Definition missing_metadata : exception :=
  ReadMetadataError "Missing metadata. Is this a resource database?".
Definition metadata_exists : exception :=
  WriteMetadataError ("Could not create metadata. " ++
    "Either this is not a database or the metadata already exists").

(** The engine state while the statement [h], a [select] prepared in [w0],
    is alive: the tables and the lock are those of [w0], and [h] is the
    only statement added. *)
Definition selecting (w0 : RefEngine.world) (h : positive) (w : RefEngine.world) : Prop :=
  RefEngine.tables w = RefEngine.tables w0 /\
  RefEngine.busy w = RefEngine.busy w0 /\
  exists (v : RefEngine.vdbe) (name : string) (cols : option (list string)),
    RefEngine.stmts w = <[h := v]> (RefEngine.stmts w0) /\
    RefEngine.prog v = RefEngine.Select name cols.


(* ------------------------------------------------------------------ *)
(** ** Integer conversions *)

Ltac unfold_ints :=
  unfold unsigned_to_signed_int64, signed_to_unsigned_int64, signed_to_unsigned_offset,
    to_uint64, to_int64, to_uint32, to_int, is_uint64, is_uint32, is_int64,
    INT64_MAX, INT_MAX in *;
  change (2 ^ 64) with 18446744073709551616 in *;
  change (2 ^ 63) with 9223372036854775808 in *;
  change (2 ^ 32) with 4294967296 in *;
  change (2 ^ 31) with 2147483648 in *.

Lemma to_int64_small (z : Z) : is_int64 z -> to_int64 z = z.
Proof. unfold_ints. intros Hz. rewrite Z.mod_small; lia. Qed.

Lemma to_uint64_to_int64 (z : Z) : is_uint64 z -> to_uint64 (to_int64 z) = z.
Proof.
  unfold_ints. intros Hz.
  destruct (Z_lt_le_dec z 9223372036854775808) as [Hlt | Hge].
  - rewrite (Z.mod_small (z + _)) by lia. rewrite Z.mod_small; lia.
  - replace (z + 9223372036854775808)
      with (z - 9223372036854775808 + 1 * 18446744073709551616) by lia.
    rewrite Z.mod_add by lia. rewrite (Z.mod_small (z - _)) by lia.
    replace (z - 9223372036854775808 - 9223372036854775808)
      with (z + (-1) * 18446744073709551616) by lia.
    rewrite Z.mod_add by lia. apply Z.mod_small. lia.
Qed.

Lemma to_uint32_to_int (z : Z) : is_uint32 z -> to_uint32 (to_int z) = z.
Proof.
  unfold_ints. intros Hz.
  destruct (Z_lt_le_dec z 2147483648) as [Hlt | Hge].
  - rewrite (Z.mod_small (z + _)) by lia. rewrite Z.mod_small; lia.
  - replace (z + 2147483648) with (z - 2147483648 + 1 * 4294967296) by lia.
    rewrite Z.mod_add by lia. rewrite (Z.mod_small (z - _)) by lia.
    replace (z - 2147483648 - 2147483648) with (z + (-1) * 4294967296) by lia.
    rewrite Z.mod_add by lia. apply Z.mod_small. lia.
Qed.

Lemma to_int_to_int (z : Z) : to_int (to_int z) = to_int z.
Proof.
  unfold_ints.
  replace ((z + 2147483648) mod 4294967296 - 2147483648 + 2147483648)
    with ((z + 2147483648) mod 4294967296) by lia.
  rewrite Z.mod_mod by lia. reflexivity.
Qed.

(** On its domain the slide encoding subtracts [2^63]. *)
Lemma unsigned_to_signed_int64_eq (v : Z) :
  is_uint64 v -> unsigned_to_signed_int64 v = v - 2 ^ 63.
Proof.
  unfold_ints. intros Hv.
  rewrite (Z.mod_small (1 + _)) by lia.
  replace (1 + (9223372036854775808 - 1)) with 9223372036854775808 by lia.
  destruct (Z_lt_le_dec v 9223372036854775808) as [Hlt | Hge].
  - replace (v - 9223372036854775808)
      with (v + 9223372036854775808 + (-1) * 18446744073709551616) by lia.
    rewrite Z.mod_add by lia. rewrite (Z.mod_small (v + _)) by lia.
    replace (v + 9223372036854775808 + 9223372036854775808)
      with (v + 1 * 18446744073709551616) by lia.
    rewrite Z.mod_add by lia. rewrite Z.mod_small; lia.
  - rewrite (Z.mod_small (v - _)) by lia.
    replace (v - 9223372036854775808 + 9223372036854775808) with v by lia.
    rewrite Z.mod_small; lia.
Qed.

(** On signed 64-bit values the inverse adds [2^63]. *)
Lemma signed_to_unsigned_int64_eq (x : Z) :
  is_int64 x -> signed_to_unsigned_int64 x = x + 2 ^ 63.
Proof.
  unfold_ints. intros Hx.
  rewrite (Z.mod_small (1 + _)) by lia.
  replace (1 + (9223372036854775808 - 1)) with 9223372036854775808 by lia.
  rewrite Zplus_mod_idemp_l. 
  destruct (Z_lt_le_dec x 0) as [Hlt | Hge].
  - rewrite Z.mod_small; lia.
  - rewrite Z.mod_small; lia.
Qed.

(** The composition of the slide encoding with its inverse. *)
Lemma slide_decode_encode (v : Z) :
  is_uint64 v -> signed_to_unsigned_int64 (unsigned_to_signed_int64 v) = v.
Proof.
  intros Hv. rewrite (unsigned_to_signed_int64_eq v Hv).
  rewrite signed_to_unsigned_int64_eq; unfold_ints; lia.
Qed.

Lemma in_range_not_gtb (value bound : Z) : value <= bound -> (value >? bound) = false.
Proof. intros Hle. rewrite Z.gtb_ltb. apply Z.ltb_ge. exact Hle. Qed.

Lemma out_of_range_gtb (value bound : Z) : bound < value -> (value >? bound) = true.
Proof. intros Hlt. rewrite Z.gtb_ltb. apply Z.ltb_lt. exact Hlt. Qed.

Lemma to_uint64_INT64_MAX : to_uint64 INT64_MAX = INT64_MAX.
Proof. reflexivity. Qed.

Lemma to_uint32_INT_MAX : to_uint32 INT_MAX = INT_MAX.
Proof. reflexivity. Qed.

(* ------------------------------------------------------------------ *)
(** ** The binding policies *)

Section Scenarios.
Import RefEngine Scenario.

(** A signed value [enc val] bound as it is and inserted is the value the
    engine returns for the column of the fetched row. *)
Lemma store_then_fetch_i64 (enc dec : Z -> Z) (val : Z) :
  fst (store_then_fetch (fun s i x n => bind_arg_i64 s i (enc x) n)
         (fun s c w => dec (column_i64 s c w)) val from_memory)
  = Returns (dec (enc val)).
Proof.
  unfold store_then_fetch. cbv beta. generalize (enc val). intros x.
  vm_compute. reflexivity.
Qed.

(** C1.  Slide round trip: for every unsigned 64-bit value [v], decoding
    the slide encoding of [v] gives [v] back,
    [signed_to_unsigned_int64 (unsigned_to_signed_int64 v) = v]; and a value
    inserted with [bind_arg_slide] is read back from the fetched row by
    [column_u64_slide]. *)
Theorem slide_round_trip (v : Z) :
  is_uint64 v ->
  signed_to_unsigned_int64 (unsigned_to_signed_int64 v) = v /\
  fst (store_then_fetch bind_arg_slide column_u64_slide v from_memory) = Returns v.
Proof.
  intros Hv. split.
  - exact (slide_decode_encode v Hv).
  - etransitivity;
      [exact (store_then_fetch_i64 unsigned_to_signed_int64 signed_to_unsigned_int64 v) |].
    rewrite (slide_decode_encode v Hv). reflexivity.
Qed.

Lemma slide_round_trip_witness :
  is_uint64 (2 ^ 64 - 1) /\
  signed_to_unsigned_int64 (unsigned_to_signed_int64 (2 ^ 64 - 1)) = 2 ^ 64 - 1.
Proof.
  assert (H : is_uint64 (2 ^ 64 - 1)) by (unfold is_uint64; lia).
  split; [exact H | exact (proj1 (slide_round_trip (2 ^ 64 - 1) H))].
Defined.

(** C2.  The slide encoding is strictly monotone across the boundary
    between the signed and the unsigned range: for unsigned 64-bit values
    [a < b], [unsigned_to_signed_int64 a] and [unsigned_to_signed_int64 b]
    are signed 64-bit values, the first is strictly less than the second,
    and these are the integers [bind_arg_slide] stores, as [column_i64]
    reads them. *)
Theorem slide_strictly_monotone (a b : Z) :
  is_uint64 a -> is_uint64 b -> a < b ->
  is_int64 (unsigned_to_signed_int64 a) /\
  is_int64 (unsigned_to_signed_int64 b) /\
  unsigned_to_signed_int64 a < unsigned_to_signed_int64 b /\
  fst (store_then_fetch bind_arg_slide column_i64 a from_memory)
  = Returns (unsigned_to_signed_int64 a) /\
  fst (store_then_fetch bind_arg_slide column_i64 b from_memory)
  = Returns (unsigned_to_signed_int64 b).
Proof.
  intros Ha Hb Hlt.
  split; [| split; [| split; [| split]]].
  - rewrite (unsigned_to_signed_int64_eq a Ha). unfold_ints. lia.
  - rewrite (unsigned_to_signed_int64_eq b Hb). unfold_ints. lia.
  - rewrite (unsigned_to_signed_int64_eq a Ha), (unsigned_to_signed_int64_eq b Hb). lia.
  - exact (store_then_fetch_i64 unsigned_to_signed_int64 (fun z => z) a).
  - exact (store_then_fetch_i64 unsigned_to_signed_int64 (fun z => z) b).
Qed.

(** The two values on either side of the boundary: [2^63 - 1] is stored as
    [-1], [2^63] as [0]. *)
Lemma slide_strictly_monotone_witness :
  is_int64 (unsigned_to_signed_int64 (2 ^ 63 - 1)) /\
  is_int64 (unsigned_to_signed_int64 (2 ^ 63)) /\
  unsigned_to_signed_int64 (2 ^ 63 - 1) < unsigned_to_signed_int64 (2 ^ 63) /\
  fst (store_then_fetch bind_arg_slide column_i64 (2 ^ 63 - 1) from_memory)
  = Returns (unsigned_to_signed_int64 (2 ^ 63 - 1)) /\
  fst (store_then_fetch bind_arg_slide column_i64 (2 ^ 63) from_memory)
  = Returns (unsigned_to_signed_int64 (2 ^ 63)).
Proof.
  apply (slide_strictly_monotone (2 ^ 63 - 1) (2 ^ 63)); unfold is_uint64; lia.
Defined.

(** C3.  The throw policy on 64-bit values.  For [lo <= INT64_MAX],
    [bind_arg_throw] hands [lo] itself to the engine and returns when the
    engine accepts the binding, and the value inserted is read back by
    [column_u64]; for [hi > INT64_MAX] it throws [OutOfBoundsError]. *)
Theorem bind_arg_throw_u64_policy {W : Type} {engine : Engine W}
    (this : Statement) (index : Z) (name : string) (w w' : W) (lo hi : Z) :
  0 <= lo <= INT64_MAX ->
  INT64_MAX < hi < 2 ^ 64 ->
  sqlite3_bind_int64 (stmt_ this) index lo w = (SQLITE_OK, w') ->
  bind_arg_throw_u64 this index lo name w = (Returns tt, w') /\
  fst (store_then_fetch bind_arg_throw_u64 column_u64 lo from_memory) = Returns lo /\
  bind_arg_throw_u64 this index hi name w
  = (Throws (OutOfBoundsError ("Value (" ++ to_string hi ++ ") in binding is out of bounds")),
     w).
Proof.
  intros Hlo Hhi Hbind.
  assert (Hfits : is_int64 lo) by (unfold_ints; lia).
  repeat split.
  - unfold bind_arg_throw_u64.
    rewrite to_uint64_INT64_MAX, (in_range_not_gtb lo INT64_MAX) by lia.
    unfold bind, call. rewrite (to_int64_small lo Hfits), Hbind. reflexivity.
  - unfold store_then_fetch, bind_arg_throw_u64.
    rewrite to_uint64_INT64_MAX, (in_range_not_gtb lo INT64_MAX) by lia.
    etransitivity; [exact (store_then_fetch_i64 to_int64 to_uint64 lo) |].
    rewrite to_uint64_to_int64 by (unfold_ints; lia). reflexivity.
  - unfold bind_arg_throw_u64.
    rewrite to_uint64_INT64_MAX, (out_of_range_gtb hi INT64_MAX) by lia.
    reflexivity.
Qed.

Lemma bind_arg_throw_u64_policy_witness :
  bind_arg_throw_u64 insert_statement 1 42 "x" insert_ready
  = (Returns tt, snd (sqlite3_bind_int64 1%positive 1 42 insert_ready)) /\
  fst (store_then_fetch bind_arg_throw_u64 column_u64 42 from_memory) = Returns 42 /\
  bind_arg_throw_u64 insert_statement 1 (2 ^ 63) "x" insert_ready
  = (Throws (OutOfBoundsError
               ("Value (" ++ to_string (2 ^ 63) ++ ") in binding is out of bounds")),
     insert_ready).
Proof.
  apply (bind_arg_throw_u64_policy insert_statement 1 "x" insert_ready
           (snd (sqlite3_bind_int64 1%positive 1 42 insert_ready)) 42 (2 ^ 63)).
  - unfold INT64_MAX. lia.
  - unfold INT64_MAX. lia.
  - vm_compute. reflexivity.
Defined.

(** C10.  The throw policy is atomic: for an out-of-range value, of the
    64-bit overload ([value64 > INT64_MAX]) as of the 32-bit overload
    ([value32 > INT32_MAX]), [bind_arg_throw] throws [OutOfBoundsError] and
    the engine state, with the bindings and the cursor of the statement, is
    the state before the call: no engine call was made. *)
Theorem bind_arg_throw_atomic {W : Type} {engine : Engine W}
    (this : Statement) (index : Z) (name : string) (w : W) (value64 value32 : Z) :
  INT64_MAX < value64 < 2 ^ 64 ->
  INT_MAX < value32 < 2 ^ 32 ->
  bind_arg_throw_u64 this index value64 name w
  = (Throws (OutOfBoundsError
               ("Value (" ++ to_string value64 ++ ") in binding is out of bounds")), w) /\
  bind_arg_throw_u32 this index value32 name w
  = (Throws (OutOfBoundsError
               ("Value (" ++ to_string value32 ++ ") in binding is out of bounds")), w).
Proof.
  intros H64 H32. split.
  - unfold bind_arg_throw_u64.
    rewrite to_uint64_INT64_MAX, (out_of_range_gtb value64 INT64_MAX) by lia.
    reflexivity.
  - unfold bind_arg_throw_u32.
    rewrite to_uint32_INT_MAX, (out_of_range_gtb value32 INT_MAX) by lia.
    reflexivity.
Qed.

Lemma bind_arg_throw_atomic_witness :
  snd (bind_arg_throw_u64 insert_statement 1 (2 ^ 64 - 1) "x" insert_ready) = insert_ready /\
  snd (bind_arg_throw_u32 insert_statement 1 (2 ^ 31) "x" insert_ready) = insert_ready.
Proof.
  destruct (bind_arg_throw_atomic insert_statement 1 "x" insert_ready (2 ^ 64 - 1) (2 ^ 31))
    as [H64 H32].
  - unfold INT64_MAX. lia.
  - unfold INT_MAX. lia.
  - rewrite H64, H32. split; reflexivity.
Defined.

End Scenarios.

(* ------------------------------------------------------------------ *)
(** ** Engine failures *)

Section EngineFailures.
Context {W : Type} {engine : Engine W}.

Lemma bind_result_signals (f : W -> Z * W) (name : string) (w : W) :
  fst (f w) <> SQLITE_OK ->
  signals_error (let* sqlite_result := call f in bind_result sqlite_result name) w.
Proof.
  intros Hrc. unfold signals_error, bind, call, bind_result, nonzero, throw.
  destruct (f w) as [rc w']. simpl in Hrc.
  destruct (Z.eqb_spec rc 0) as [Heq | Hne]; [contradiction |].
  simpl. eexists. reflexivity.
Qed.

Lemma Database_exec_signals (command error_message : string) (w : W) :
  fst (sqlite3_exec command w) <> SQLITE_OK ->
  signals_error (Database_exec command error_message) w.
Proof.
  intros Hrc. unfold signals_error, Database_exec, bind, call, nonzero, throw.
  destruct (sqlite3_exec command w) as [rc w']. simpl in Hrc.
  destruct (Z.eqb_spec rc 0) as [Heq | Hne]; [contradiction |].
  simpl. eexists. reflexivity.
Qed.

Lemma Statement_ctor_signals (stmt_str : string) (w : W) :
  fst (fst (sqlite3_prepare_v2 stmt_str w)) <> SQLITE_OK ->
  signals_error (Statement_ctor stmt_str) w.
Proof.
  intros Hrc. unfold signals_error, Statement_ctor, nonzero.
  destruct (sqlite3_prepare_v2 stmt_str w) as [[rc stmt] w']. simpl in Hrc.
  destruct (Z.eqb_spec rc 0) as [Heq | Hne]; [contradiction |].
  simpl. eexists. reflexivity.
Qed.

Lemma bind_null_signals (this : Statement) (index : Z) (name : string) (w : W) :
  fst (sqlite3_bind_null (stmt_ this) index w) <> SQLITE_OK ->
  signals_error (bind_null this index name) w.
Proof.
  intros Hrc. unfold signals_error, bind_null, bind, call, nonzero, throw.
  destruct (sqlite3_bind_null (stmt_ this) index w) as [rc w']. simpl in Hrc.
  destruct (Z.eqb_spec rc 0) as [Heq | Hne]; [contradiction |].
  simpl. eexists. reflexivity.
Qed.

Lemma step_signals (this : Statement) (w : W) :
  fst (sqlite3_step (stmt_ this) w) <> SQLITE_ROW ->
  fst (sqlite3_step (stmt_ this) w) <> SQLITE_DONE ->
  signals_error (step this) w.
Proof.
  intros Hrow Hdone. unfold signals_error, step, bind, call, throw.
  destruct (sqlite3_step (stmt_ this) w) as [rc w']. simpl in Hrow, Hdone.
  destruct (Z.eqb_spec rc SQLITE_ROW) as [Heq | _]; [contradiction |].
  destruct (Z.eqb_spec rc SQLITE_DONE) as [Heq | _]; [contradiction |].
  destruct (rc =? SQLITE_BUSY); [eexists; reflexivity |].
  destruct (rc =? SQLITE_MISUSE); eexists; reflexivity.
Qed.

Lemma throw_signals {A : Type} (e : exception) (w : W) : signals_error (@throw W A e) w.
Proof. exists e. reflexivity. Qed.

(** C9, as the code has it.  [Database::exec], the [Statement] constructor,
    every binding method and [step] signal an error whenever the engine
    call they make reports a failure (for [step]: any result but a row or
    the end of the rows).  [reset] and [clear_bindings] return normally
    whatever [sqlite3_reset] and [sqlite3_clear_bindings] report; they only
    pass the engine state on. *)
Theorem engine_failures_signalled
    (this : Statement) (index value size : Z) (text name command error_message : string)
    (blob : list Byte.byte) (is_transient : bool) (w : W) :
  (fst (sqlite3_exec command w) <> SQLITE_OK ->
   signals_error (Database_exec command error_message) w) /\
  (fst (fst (sqlite3_prepare_v2 command w)) <> SQLITE_OK ->
   signals_error (Statement_ctor command) w) /\
  (fst (sqlite3_bind_int64 (stmt_ this) index (to_int64 value) w) <> SQLITE_OK ->
   signals_error (bind_arg_cast_u64 this index value name) w /\
   signals_error (bind_arg_throw_u64 this index value name) w /\
   signals_error (bind_arg_extend_u32 this index value name) w) /\
  (fst (sqlite3_bind_int64 (stmt_ this) index (unsigned_to_signed_int64 value) w)
   <> SQLITE_OK ->
   signals_error (bind_arg_slide this index value name) w) /\
  (fst (sqlite3_bind_int64 (stmt_ this) index value w) <> SQLITE_OK ->
   signals_error (bind_arg_i64 this index value name) w) /\
  (fst (sqlite3_bind_int64 (stmt_ this) index (to_int value) w) <> SQLITE_OK ->
   signals_error (bind_arg_throw_u32 this index value name) w) /\
  (fst (sqlite3_bind_int (stmt_ this) index (to_int value) w) <> SQLITE_OK ->
   signals_error (bind_arg_cast_u32 this index value name) w /\
   signals_error (bind_arg_extend_u16 this index value name) w /\
   signals_error (bind_arg_extend_u8 this index value name) w /\
   signals_error (bind_arg_extend_i16 this index value name) w /\
   signals_error (bind_arg_extend_i8 this index value name) w) /\
  (fst (sqlite3_bind_int (stmt_ this) index value w) <> SQLITE_OK ->
   signals_error (bind_arg_i32 this index value name) w) /\
  (INT_MAX < size ->
   fst (sqlite3_bind_text64 (stmt_ this) index text size
          (if is_transient then SQLITE_TRANSIENT else SQLITE_STATIC) SQLITE_UTF8 w)
   <> SQLITE_OK ->
   signals_error (bind_text_impl this index text size name is_transient) w) /\
  (size <= INT_MAX ->
   fst (sqlite3_bind_text (stmt_ this) index text (to_int size)
          (if is_transient then SQLITE_TRANSIENT else SQLITE_STATIC) w) <> SQLITE_OK ->
   signals_error (bind_text_impl this index text size name is_transient) w) /\
  (INT_MAX < size ->
   fst (sqlite3_bind_blob64 (stmt_ this) index blob size
          (if is_transient then SQLITE_TRANSIENT else SQLITE_STATIC) w) <> SQLITE_OK ->
   signals_error (bind_blob_impl this index blob size name is_transient) w) /\
  (size <= INT_MAX ->
   fst (sqlite3_bind_blob (stmt_ this) index blob (to_int size)
          (if is_transient then SQLITE_TRANSIENT else SQLITE_STATIC) w) <> SQLITE_OK ->
   signals_error (bind_blob_impl this index blob size name is_transient) w) /\
  (fst (sqlite3_bind_null (stmt_ this) index w) <> SQLITE_OK ->
   signals_error (bind_null this index name) w) /\
  (fst (sqlite3_step (stmt_ this) w) <> SQLITE_ROW ->
   fst (sqlite3_step (stmt_ this) w) <> SQLITE_DONE ->
   signals_error (step this) w) /\
  reset this w = (Returns tt, snd (sqlite3_reset (stmt_ this) w)) /\
  clear_bindings this w = (Returns tt, snd (sqlite3_clear_bindings (stmt_ this) w)).
Proof.
  split; [apply Database_exec_signals |].
  split; [apply Statement_ctor_signals |].
  split.
  { intros Hrc. repeat split.
    - apply bind_result_signals, Hrc.
    - unfold bind_arg_throw_u64. destruct (value >? to_uint64 INT64_MAX).
      + apply throw_signals.
      + apply bind_result_signals, Hrc.
    - apply bind_result_signals, Hrc. }
  split; [intros Hrc; apply bind_result_signals, Hrc |].
  split; [intros Hrc; apply bind_result_signals, Hrc |].
  split.
  { intros Hrc. unfold bind_arg_throw_u32. destruct (value >? to_uint32 INT_MAX).
    - apply throw_signals.
    - apply bind_result_signals, Hrc. }
  split; [intros Hrc; repeat split; apply bind_result_signals, Hrc |].
  split; [intros Hrc; apply bind_result_signals, Hrc |].
  split.
  { intros Hsize Hrc. unfold bind_text_impl.
    rewrite (out_of_range_gtb size INT_MAX Hsize). apply bind_result_signals, Hrc. }
  split.
  { intros Hsize Hrc. unfold bind_text_impl.
    rewrite (in_range_not_gtb size INT_MAX Hsize). apply bind_result_signals, Hrc. }
  split.
  { intros Hsize Hrc. unfold bind_blob_impl.
    rewrite (out_of_range_gtb size INT_MAX Hsize). apply bind_result_signals, Hrc. }
  split.
  { intros Hsize Hrc. unfold bind_blob_impl.
    rewrite (in_range_not_gtb size INT_MAX Hsize). apply bind_result_signals, Hrc. }
  split; [apply bind_null_signals |].
  split; [apply step_signals |].
  split; reflexivity.
Qed.

End EngineFailures.

Section EngineFailuresOnTheReferenceEngine.
Import RefEngine Scenario.

(** [test_fail_bind]: the statement has one parameter, binding the fourth
    is refused by the engine and signalled. *)
Lemma engine_failures_signalled_witness :
  signals_error (bind_arg_cast_u64 insert_statement 4 42 "foo") insert_ready /\
  fst (bind_arg_cast_u64 insert_statement 4 42 "foo" insert_ready)
  = Throws (DatabaseError "Can't bind foo: bind or column index out of range").
Proof.
  destruct (engine_failures_signalled insert_statement 4 42 0 "" "foo" "" "" nil false
              insert_ready) as (_ & _ & Hcast & _).
  split.
  - apply Hcast. vm_compute. discriminate.
  - vm_compute. reflexivity.
Defined.

(** C9, as stated, fails for [reset]: after a [step] that found the database
    locked, [sqlite3_reset] reports [SQLITE_BUSY], and [reset] returns
    normally. *)
Lemma reset_discards_engine_failure :
  fst (sqlite3_reset (stmt_ insert_statement) insert_refused) = SQLITE_BUSY /\
  fst (sqlite3_reset (stmt_ insert_statement) insert_refused) <> SQLITE_OK /\
  fst (reset insert_statement insert_refused) = Returns tt /\
  ~ signals_error (reset insert_statement) insert_refused.
Proof.
  repeat split.
  - vm_compute. discriminate.
  - intros [e He]. vm_compute in He. discriminate.
Qed.

End EngineFailuresOnTheReferenceEngine.

(* ------------------------------------------------------------------ *)
(** ** Updating the envelope *)

(** C7.  When the cached schema version [md_version_] is not the current
    [metadata_version], [set_metadata] throws [WriteMetadataError]; the
    object, with its cached envelope [md_], and the engine state are those
    before the call. *)
Theorem set_metadata_version_mismatch {W : Type} {engine : Engine W}
    (this : ResourceDatabase) (new_metadata : Metadata) (w : W) :
  md_version_ this <> metadata_version ->
  set_metadata new_metadata (this, w)
  = (Throws (WriteMetadataError
               "Can't set the metadata with different metadata version than the current"),
     (this, w)).
Proof.
  intros Hversion. unfold set_metadata, bind, get_fst. simpl.
  destruct (Z.eqb_spec (md_version_ this) metadata_version) as [Heq | Hne];
    [contradiction | reflexivity].
Qed.

Lemma set_metadata_version_mismatch_witness :
  set_metadata Scenario.dummy_md
    ({| md_ := Scenario.dummy_md; md_version_ := 0 |}, RefEngine.from_memory)
  = (Throws (WriteMetadataError
               "Can't set the metadata with different metadata version than the current"),
     ({| md_ := Scenario.dummy_md; md_version_ := 0 |}, RefEngine.from_memory)).
Proof.
  apply set_metadata_version_mismatch. unfold metadata_version. simpl. lia.
Defined.

(* ------------------------------------------------------------------ *)
(** ** Lazy queries *)

Section QueryProperties.
Context {W : Type} {engine : Engine W} {T : Type}.

Lemma step_row (stmt : Statement) (w w1 : W) :
  sqlite3_step (stmt_ stmt) w = (SQLITE_ROW, w1) -> step stmt w = (Returns Row, w1).
Proof. intros Hstep. unfold step, bind, call. rewrite Hstep. reflexivity. Qed.

Lemma step_done (stmt : Statement) (w w1 : W) :
  sqlite3_step (stmt_ stmt) w = (SQLITE_DONE, w1) -> step stmt w = (Returns Done, w1).
Proof. intros Hstep. unfold step, bind, call. rewrite Hstep. reflexivity. Qed.

Lemma Query_ctor_row (stmt : Statement) (f : Statement -> W -> T) (w w1 : W) :
  sqlite3_step (stmt_ stmt) w = (SQLITE_ROW, w1) ->
  Query_ctor stmt f w
  = (Returns {| current_ := Some (f stmt w1); fetch_stmt_ := Some stmt; f_ := f |}, w1).
Proof.
  intros Hstep. unfold Query_ctor, unwind, bind. rewrite (step_row stmt w w1 Hstep).
  reflexivity.
Qed.

Lemma Query_ctor_done (stmt : Statement) (f : Statement -> W -> T) (w w1 : W) :
  sqlite3_step (stmt_ stmt) w = (SQLITE_DONE, w1) ->
  Query_ctor stmt f w
  = (Returns {| current_ := None; fetch_stmt_ := None; f_ := f |}, Statement_dtor stmt w1).
Proof.
  intros Hstep. unfold Query_ctor, unwind, bind. rewrite (step_done stmt w w1 Hstep).
  reflexivity.
Qed.

Lemma preincrement_row (q : Query W T) (stmt : Statement) (this : QueryPtr) (w w1 : W) :
  fetch_stmt_ q = Some stmt ->
  sqlite3_step (stmt_ stmt) w = (SQLITE_ROW, w1) ->
  Iterator_preincrement {| query_ := Some this |} (q, w)
  = (Returns {| query_ := Some this |},
     ({| current_ := Some (f_ q stmt w1); fetch_stmt_ := Some stmt; f_ := f_ q |}, w1)).
Proof.
  intros Hheld Hstep. unfold Iterator_preincrement, bind, get_fst, on_snd.
  cbn [query_ fst snd]. rewrite Hheld. cbn [fst snd].
  rewrite (step_row stmt w w1 Hstep). reflexivity.
Qed.

Lemma preincrement_done (q : Query W T) (stmt : Statement) (this : QueryPtr) (w w1 : W) :
  fetch_stmt_ q = Some stmt ->
  sqlite3_step (stmt_ stmt) w = (SQLITE_DONE, w1) ->
  Iterator_preincrement {| query_ := Some this |} (q, w)
  = (Returns end_,
     ({| current_ := current_ q; fetch_stmt_ := None; f_ := f_ q |},
      Statement_dtor stmt w1)).
Proof.
  intros Hheld Hstep. unfold Iterator_preincrement, bind, get_fst, on_snd.
  cbn [query_ fst snd]. rewrite Hheld. cbn [fst snd].
  rewrite (step_done stmt w w1 Hstep). reflexivity.
Qed.

(** A step of [Iterator_preincrement] leaves the statement held only
    together with a current value. *)
Lemma preincrement_keeps_current (q q' : Query W T) (it : Iterator) (w w' : W)
    (r : outcome Iterator) :
  (is_Some (fetch_stmt_ q) -> is_Some (current_ q)) ->
  Iterator_preincrement it (q, w) = (r, (q', w')) ->
  is_Some (fetch_stmt_ q') -> is_Some (current_ q').
Proof.
  intros Hinv Hincr. unfold Iterator_preincrement in Hincr.
  destruct (query_ it) as [p |]; [| injection Hincr as _ <- _; exact Hinv].
  unfold bind, get_fst, on_snd in Hincr. cbn [fst snd] in Hincr.
  destruct (fetch_stmt_ q) as [stmt |] eqn:Hheld;
    [| injection Hincr as _ <- _; rewrite Hheld; exact Hinv].
  cbn [fst snd] in Hincr.
  destruct (step stmt w) as [[[] | e |] w1] eqn:Hstep; simpl in Hincr.
  - injection Hincr as _ <- _. simpl. intros H. destruct H as [x Hx]. discriminate.
  - injection Hincr as _ <- _. simpl. intros _. eexists. reflexivity.
  - injection Hincr as _ <- _. rewrite Hheld. exact Hinv.
  - injection Hincr as _ <- _. rewrite Hheld. exact Hinv.
Qed.

Lemma reachable_current (q : Query W T) :
  reachable q -> is_Some (fetch_stmt_ q) -> is_Some (current_ q).
Proof.
  induction 1 as [stmt f w w' q Hctor | q q' it w w' r Hreach IH Hincr].
  - unfold Query_ctor, unwind, bind in Hctor.
    destruct (step stmt w) as [[[] | e |] w1]; simpl in Hctor; try discriminate.
    + injection Hctor as <- _. simpl. intros [x Hx]. discriminate.
    + injection Hctor as <- _. simpl. intros _. eexists. reflexivity.
  - exact (preincrement_keeps_current q q' it w w' r IH Hincr).
Qed.

(** C8, as the code has it.  In every reachable state of a [Query] that
    still holds its statement, [current_] is populated.  Advancing when the
    statement reports [Done] releases the statement (it is finalized and
    [fetch_stmt_] emptied: the query is finished, the iterator is the end
    iterator) and leaves [current_] as it was. *)
Theorem query_holds_current_while_fetching
    (q : Query W T) (stmt : Statement) :
  reachable q ->
  fetch_stmt_ q = Some stmt ->
  is_Some (current_ q) /\
  forall (this : QueryPtr) (w w1 : W),
    sqlite3_step (stmt_ stmt) w = (SQLITE_DONE, w1) ->
    Iterator_preincrement {| query_ := Some this |} (q, w)
    = (Returns end_,
       ({| current_ := current_ q; fetch_stmt_ := None; f_ := f_ q |},
        Statement_dtor stmt w1)).
Proof.
  intros Hreach Hheld. split.
  - apply (reachable_current q Hreach). rewrite Hheld. eexists. reflexivity.
  - intros this w w1 Hstep. exact (preincrement_done q stmt this w w1 Hheld Hstep).
Qed.

Lemma Iterator_eqb_end (this : QueryPtr) :
  Iterator_eqb {| query_ := Some this |} end_ = false.
Proof. unfold Iterator_eqb. apply bool_decide_eq_false. simpl. discriminate. Qed.

Lemma collect_at_end (fuel : nat) (s : Query W T * W) :
  collect fuel end_ end_ s = (Returns (Some nil), s).
Proof. destruct fuel; reflexivity. Qed.

(** One turn of the loop of [collect], from a query that is on a row. *)
Lemma collect_on_row (fuel : nat) (this : QueryPtr) (q : Query W T) (w : W) (c : T) :
  current_ q = Some c ->
  collect (S fuel) {| query_ := Some this |} end_ (q, w)
  = (let* first' := Iterator_preincrement {| query_ := Some this |} in
     let* rest := collect fuel first' end_ in
     ret (option_map (cons c) rest)) (q, w).
Proof.
  intros Hcurrent. cbn [collect]. rewrite Iterator_eqb_end.
  unfold bind at 1. unfold get_fst. cbn [fst snd].
  unfold bind at 1. unfold read_outcome, Iterator_deref. cbn [query_].
  rewrite Hcurrent. reflexivity.
Qed.

(** Collecting from a query that is on a row, when the statement still
    produces the rows [ws]. *)
Lemma collect_from_row (stmt : Statement) (f : Statement -> W -> T) (this : QueryPtr)
    (w : W) (ws : list W) (w_end : W) :
  yields (stmt_ stmt) w ws w_end ->
  forall (c : T) (fuel : nat),
    (length ws < fuel)%nat ->
    exists q' : Query W T,
      collect fuel {| query_ := Some this |} end_
        ({| current_ := Some c; fetch_stmt_ := Some stmt; f_ := f |}, w)
      = (Returns (Some (c :: map (f stmt) ws)), (q', Statement_dtor stmt w_end)) /\
      finished q' = true.
Proof.
  induction 1 as [w w_end Hstep | w w1 ws w_end Hstep Hrest IH]; intros c fuel Hfuel.
  - destruct fuel as [| fuel]; [simpl in Hfuel; lia |].
    pose proof (collect_on_row fuel this
                  {| current_ := Some c; fetch_stmt_ := Some stmt; f_ := f |} w c eq_refl)
      as Hturn.
    pose proof (preincrement_done
                  {| current_ := Some c; fetch_stmt_ := Some stmt; f_ := f |}
                  stmt this w w_end eq_refl Hstep) as Hincr.
    eexists. split.
    + rewrite Hturn. unfold bind at 1. rewrite Hincr.
      unfold bind. rewrite collect_at_end. reflexivity.
    + reflexivity.
  - destruct fuel as [| fuel]; [simpl in Hfuel; lia |].
    destruct (IH (f stmt w1) fuel) as [q' [Hcollect Hfinished]];
      [simpl in Hfuel; lia |].
    pose proof (collect_on_row fuel this
                  {| current_ := Some c; fetch_stmt_ := Some stmt; f_ := f |} w c eq_refl)
      as Hturn.
    pose proof (preincrement_row
                  {| current_ := Some c; fetch_stmt_ := Some stmt; f_ := f |}
                  stmt this w w1 eq_refl Hstep) as Hincr.
    cbn [f_] in Hincr.
    exists q'. split; [| exact Hfinished].
    rewrite Hturn. unfold bind at 1. rewrite Hincr.
    unfold bind. rewrite Hcollect. reflexivity.
Qed.

(** C5.  When the statement produces [N] rows (in the engine states [ws])
    and then reports the end, the [Query] built from it yields the [N]
    decoded values, in that order, and is then finished; when it produces
    no row the query is finished as soon as it is built and [begin()]
    equals [end()]. *)
Theorem query_yields_rows (stmt : Statement) (f : Statement -> W -> T) (this : QueryPtr)
    (w : W) (ws : list W) (w_end : W) (fuel : nat) :
  yields (stmt_ stmt) w ws w_end ->
  (length ws <= fuel)%nat ->
  exists (q : Query W T) (w1 : W) (q' : Query W T),
    Query_ctor stmt f w = (Returns q, w1) /\
    collect fuel (begin this q) end_ (q, w1)
    = (Returns (Some (map (f stmt) ws)), (q', Statement_dtor stmt w_end)) /\
    finished q' = true /\
    (ws = nil -> finished q = true /\ Iterator_eqb (begin this q) end_ = true).
Proof.
  intros Hyields Hfuel.
  destruct Hyields as [w w_end Hstep | w w1 ws w_end Hstep Hrest].
  - exists {| current_ := None; fetch_stmt_ := None; f_ := f |}, (Statement_dtor stmt w_end),
      {| current_ := None; fetch_stmt_ := None; f_ := f |}.
    split; [exact (Query_ctor_done stmt f w w_end Hstep) |].
    split; [apply collect_at_end |].
    split; [reflexivity |].
    intros _. split; reflexivity.
  - destruct (collect_from_row stmt f this w1 ws w_end Hrest (f stmt w1) fuel)
      as [q' [Hcollect Hfinished]]; [simpl in Hfuel; lia |].
    exists {| current_ := Some (f stmt w1); fetch_stmt_ := Some stmt; f_ := f |}, w1, q'.
    split; [exact (Query_ctor_row stmt f w w1 Hstep) |].
    split; [exact Hcollect |].
    split; [exact Hfinished |].
    intros Hnil. discriminate.
Qed.

End QueryProperties.

Section QueriesOnTheReferenceEngine.
Import RefEngine Scenario.

Lemma two_rows_yields :
  yields 2%positive two_rows [two_rows_1; two_rows_2]%list two_rows_end.
Proof.
  apply yields_row with (w1 := two_rows_1); [vm_compute; reflexivity |].
  apply yields_row with (w1 := two_rows_2); [vm_compute; reflexivity |].
  apply yields_done. vm_compute. reflexivity.
Qed.

Lemma single_query_built :
  Query_ctor fetch_statement fetch_value one_row = (Returns single_query, one_row_1).
Proof.
  apply (Query_ctor_row fetch_statement fetch_value one_row one_row_1).
  vm_compute. reflexivity.
Qed.

Lemma single_query_reachable : reachable single_query.
Proof. exact (reachable_ctor _ _ _ _ _ single_query_built). Qed.

Lemma single_query_exhausted :
  Iterator_preincrement (begin 1%positive single_query) (single_query, one_row_1)
  = (Returns end_, (exhausted_query, Statement_dtor fetch_statement one_row_end)).
Proof.
  apply (preincrement_done single_query fetch_statement 1%positive one_row_1 one_row_end).
  - reflexivity.
  - vm_compute. reflexivity.
Qed.

Lemma query_holds_current_while_fetching_witness :
  is_Some (current_ single_query) /\
  Iterator_preincrement {| query_ := Some 1%positive |} (single_query, one_row_1)
  = (Returns end_,
     ({| current_ := current_ single_query; fetch_stmt_ := None; f_ := f_ single_query |},
      Statement_dtor fetch_statement one_row_end)).
Proof.
  destruct (query_holds_current_while_fetching single_query fetch_statement
              single_query_reachable eq_refl) as [Hcurrent Hdone].
  split; [exact Hcurrent |].
  apply Hdone. vm_compute. reflexivity.
Defined.

(** C8, as stated, fails: [test_iter_single].  The query built over one row
    and advanced once is finished, its statement released, and [current_]
    still holds the value decoded from that row. *)
Lemma exhausted_query_keeps_current :
  reachable exhausted_query /\
  finished exhausted_query = true /\
  fetch_stmt_ exhausted_query = None /\
  current_ exhausted_query = Some 42 /\
  ~ (is_Some (current_ exhausted_query) <-> is_Some (fetch_stmt_ exhausted_query)).
Proof.
  split.
  { exact (reachable_increment _ _ _ _ _ _ single_query_reachable single_query_exhausted). }
  repeat split.
  intros [Hheld _]. destruct Hheld as [stmt Hstmt]; [eexists; reflexivity | discriminate].
Qed.

(** [test_iter_vec]: the two rows are collected in order. *)
Lemma query_yields_rows_witness :
  exists (q : Query world Z) (w1 : world) (q' : Query world Z),
    Query_ctor fetch_statement fetch_value two_rows = (Returns q, w1) /\
    collect 2 (begin 1%positive q) end_ (q, w1)
    = (Returns (Some (map (fetch_value fetch_statement) [two_rows_1; two_rows_2]%list)),
       (q', Statement_dtor fetch_statement two_rows_end)) /\
    finished q' = true /\
    ([two_rows_1; two_rows_2]%list = nil ->
     finished q = true /\ Iterator_eqb (begin 1%positive q) end_ = true).
Proof.
  apply (query_yields_rows fetch_statement fetch_value 1%positive two_rows
           [two_rows_1; two_rows_2]%list two_rows_end 2).
  - exact two_rows_yields.
  - simpl. lia.
Defined.

Example test_iter_vec :
  map (fetch_value fetch_statement) [two_rows_1; two_rows_2]%list = [42; 21]%list.
Proof. vm_compute. reflexivity. Qed.

End QueriesOnTheReferenceEngine.

(* ------------------------------------------------------------------ *)
(** ** The wrappers on the reference engine *)

Lemma bind_read {S A B : Type} (f : S -> A) (k : A -> St S B) (s : S) :
  (let* x := read f in k x) s = k (f s) s.
Proof. reflexivity. Qed.

Lemma bind_read_outcome {S A B : Type} (f : S -> outcome A) (k : A -> St S B) (s : S)
    (a : A) :
  f s = Returns a -> (let* x := read_outcome f in k x) s = k a s.
Proof. intros Hf. unfold bind, read_outcome. rewrite Hf. reflexivity. Qed.

Lemma bind_ret {S A B : Type} (a : A) (k : A -> St S B) (s : S) :
  (let* x := ret a in k x) s = k a s.
Proof. reflexivity. Qed.

Lemma bind_assoc {S A B C : Type} (m : St S A) (k : A -> St S B) (k' : B -> St S C)
    (s : S) :
  (let* y := (let* x := m in k x) in k' y) s = (let* x := m in let* y := k x in k' y) s.
Proof. unfold bind. destruct (m s) as [[a | e |] s']; reflexivity. Qed.




Module RefEngineFacts.
Import RefEngine.

Lemma set_stmt_facts (h : positive) (v : vdbe) (w : world) :
  tables (set_stmt h v w) = tables w /\ busy (set_stmt h v w) = busy w /\
  stmts (set_stmt h v w) !! h = Some v.
Proof. repeat split. apply lookup_insert_eq. Qed.

Lemma new_stmt_facts (p : program) (w : world) :
  tables (new_stmt p w) = tables w /\ busy (new_stmt p w) = busy w /\
  stmts (new_stmt p w) !! next_stmt w
  = Some {| prog := p; params := replicate (arity p) VNull; pc := Ready; step_rc := 0 |}.
Proof. repeat split. apply lookup_insert_eq. Qed.

Lemma Statement_dtor_facts (stmt : Statement) (w : world) :
  tables (Statement_dtor stmt w) = tables w /\ busy (Statement_dtor stmt w) = busy w.
Proof.
  unfold Statement_dtor. cbn [sqlite3_finalize engine]. unfold finalize.
  destruct (stmts w !! stmt_ stmt); split; reflexivity.
Qed.


Lemma Statement_ctor_ok (sql : string) (p : program) (w : world) :
  parse sql = Some p -> busy w = false -> compiles p (tables w) = true ->
  Statement_ctor sql w = (Returns {| stmt_ := next_stmt w |}, new_stmt p w).
Proof.
  intros Hparse Hbusy Hcompiles. unfold Statement_ctor. cbn [sqlite3_prepare_v2 engine].
  unfold prepare. rewrite Hparse, Hbusy, Hcompiles. reflexivity.
Qed.


(** A [select] that is before row [i] of its table moves onto it. *)
Lemma sqlite3_step_fetch_row (h : positive) (w : world) (v : vdbe) (name : string)
    (cols : option (list string)) (t : table) (i : nat) (row : list value) :
  stmts w !! h = Some v -> busy w = false -> prog v = Select name cols ->
  tables w !! name = Some t ->
  (pc v = Ready /\ i = O \/ exists r, pc v = AtRow i r) ->
  rows t !! i = Some row ->
  sqlite3_step h w
  = (SQLITE_ROW,
     set_stmt h {| prog := prog v; params := params v;
                   pc := AtRow (S i) (project (columns t) cols row); step_rc := 0 |} w).
Proof.
  intros Hstmt Hbusy Hprog Htable Hpc Hrow.
  cbn [sqlite3_step engine]. unfold step_stmt.
  rewrite Hstmt, Hbusy.
  destruct Hpc as [[Hpc ->] | [r Hpc]]; rewrite Hpc.
  - rewrite Hprog. unfold fetch. rewrite Hprog, Htable, Hrow. reflexivity.
  - unfold fetch. rewrite Hprog, Htable, Hrow. reflexivity.
Qed.

(** A [select] that is past the last row of its table ends. *)
Lemma sqlite3_step_fetch_done (h : positive) (w : world) (v : vdbe) (name : string)
    (cols : option (list string)) (t : table) (i : nat) :
  stmts w !! h = Some v -> busy w = false -> prog v = Select name cols ->
  tables w !! name = Some t ->
  (pc v = Ready /\ i = O \/ exists r, pc v = AtRow i r) ->
  rows t !! i = None ->
  sqlite3_step h w
  = (SQLITE_DONE,
     set_stmt h {| prog := prog v; params := params v; pc := Halted; step_rc := 0 |} w).
Proof.
  intros Hstmt Hbusy Hprog Htable Hpc Hrow.
  cbn [sqlite3_step engine]. unfold step_stmt.
  rewrite Hstmt, Hbusy.
  destruct Hpc as [[Hpc ->] | [r Hpc]]; rewrite Hpc.
  - rewrite Hprog. unfold fetch. rewrite Hprog, Htable, Hrow. reflexivity.
  - unfold fetch. rewrite Hprog, Htable, Hrow. reflexivity.
Qed.

Lemma step_fetch_row (h : positive) (w : world) (v : vdbe) (name : string)
    (cols : option (list string)) (t : table) (i : nat) (row : list value) :
  stmts w !! h = Some v -> busy w = false -> prog v = Select name cols ->
  tables w !! name = Some t ->
  (pc v = Ready /\ i = O \/ exists r, pc v = AtRow i r) ->
  rows t !! i = Some row ->
  step {| stmt_ := h |} w
  = (Returns Row,
     set_stmt h {| prog := prog v; params := params v;
                   pc := AtRow (S i) (project (columns t) cols row); step_rc := 0 |} w).
Proof.
  intros Hstmt Hbusy Hprog Htable Hpc Hrow. apply step_row.
  exact (sqlite3_step_fetch_row h w v name cols t i row Hstmt Hbusy Hprog Htable Hpc Hrow).
Qed.

Lemma step_fetch_done (h : positive) (w : world) (v : vdbe) (name : string)
    (cols : option (list string)) (t : table) (i : nat) :
  stmts w !! h = Some v -> busy w = false -> prog v = Select name cols ->
  tables w !! name = Some t ->
  (pc v = Ready /\ i = O \/ exists r, pc v = AtRow i r) ->
  rows t !! i = None ->
  step {| stmt_ := h |} w
  = (Returns Done,
     set_stmt h {| prog := prog v; params := params v; pc := Halted; step_rc := 0 |} w).
Proof.
  intros Hstmt Hbusy Hprog Htable Hpc Hrow. apply step_done.
  exact (sqlite3_step_fetch_done h w v name cols t i Hstmt Hbusy Hprog Htable Hpc Hrow).
Qed.


Lemma column_value_on_row (h : positive) (w : world) (v : vdbe) (i : nat)
    (row : list value) (column : Z) :
  stmts w !! h = Some v -> pc v = AtRow i row -> 0 <= column ->
  column_value h column w = default VNull (row !! Z.to_nat column).
Proof.
  intros Hstmt Hpc Hcolumn. unfold column_value. rewrite Hstmt, Hpc.
  destruct (Z.leb_spec 0 column); [reflexivity | lia].
Qed.





(** A [select] statement produces the rows of its table that are left, in
    the order of the table, then reports the end. *)
Lemma select_yields (h : positive) (name : string) (cols : option (list string))
    (t : table) (rest : list (list value)) :
  forall (i : nat) (w : world) (v : vdbe),
    stmts w !! h = Some v -> busy w = false -> prog v = Select name cols ->
    tables w !! name = Some t ->
    (pc v = Ready /\ i = O \/ exists r, pc v = AtRow i r) ->
    drop i (rows t) = rest ->
    exists (ws : list world) (w_end : world),
      yields h w ws w_end /\
      Forall2 (on_row h) (map (project (columns t) cols) rest) ws.
Proof.
  induction rest as [| row rest IH]; intros i w v Hstmt Hbusy Hprog Htable Hpc Hdrop.
  - assert (Hrow : rows t !! i = None).
    { rewrite <- (Nat.add_0_r i), <- lookup_drop, Hdrop. reflexivity. }
    eexists nil, _. split; [| constructor].
    apply yields_done.
    exact (sqlite3_step_fetch_done h w v name cols t i Hstmt Hbusy Hprog Htable Hpc Hrow).
  - assert (Hrow : rows t !! i = Some row).
    { rewrite <- (Nat.add_0_r i), <- lookup_drop, Hdrop. reflexivity. }
    pose proof (sqlite3_step_fetch_row h w v name cols t i row Hstmt Hbusy Hprog Htable
                  Hpc Hrow) as Hstep.
    match type of Hstep with
    | _ = (_, set_stmt h ?v1 w) =>
        destruct (set_stmt_facts h v1 w) as (Htables1 & Hbusy1 & Hstmt1);
        destruct (IH (S i) (set_stmt h v1 w) v1 Hstmt1) as (ws & w_end & Hyields & Hrows)
    end.
    + rewrite Hbusy1. exact Hbusy.
    + exact Hprog.
    + rewrite Htables1. exact Htable.
    + right. eexists. reflexivity.
    + rewrite (drop_S _ _ _ Hrow) in Hdrop. injection Hdrop as Hdrop. exact Hdrop.
    + eexists (_ :: ws), w_end. split.
      * eapply yields_row; [exact Hstep | exact Hyields].
      * cbn [map]. constructor; [| exact Hrows].
        intros column Hcolumn.
        exact (column_value_on_row h _ _ (S i) _ column Hstmt1 eq_refl Hcolumn).
Qed.

Lemma fetch_value_on_rows (h : positive) (rs : list (list value)) (ws : list world) :
  Forall2 (on_row h) rs ws ->
  map (Scenario.fetch_value {| stmt_ := h |}) ws
  = map (fun row => to_uint64 (value_int64 (default VNull (row !! O)))) rs.
Proof.
  induction 1 as [| row w rs ws Hrow Hrest IH]; [reflexivity |].
  cbn [map]. rewrite IH. f_equal.
  unfold Scenario.fetch_value, column_i64. cbn [sqlite3_column_int64 engine stmt_].
  rewrite (Hrow 0) by lia. reflexivity.
Qed.

(** The query of [test_query.cpp] over a table [test] of any number of
    rows yields the values of the rows, in the order of the table, and is
    then finished. *)
Lemma query_over_test_table (w : world) (xs : list Z) (this : QueryPtr) (fuel : nat) :
  tables w !! "test"
  = Some {| columns := ["x"]; rows := map (fun x => [VInteger x]) xs |} ->
  busy w = false ->
  (length xs <= fuel)%nat ->
  exists (stmt : Statement) (w0 : world) (q : Query world Z) (w1 : world)
         (q' : Query world Z) (w2 : world),
    Scenario.get_fetch_stmt w = (Returns stmt, w0) /\
    Query_ctor stmt Scenario.fetch_value w0 = (Returns q, w1) /\
    collect fuel (begin this q) end_ (q, w1) = (Returns (Some (map to_uint64 xs)), (q', w2)) /\
    finished q' = true.
Proof.
  intros Htable Hbusy Hfuel.
  pose proof (Statement_ctor_ok "select x from test;" (Select "test" (Some ["x"])) w
                eq_refl Hbusy) as Hctor.
  destruct (new_stmt_facts (Select "test" (Some ["x"])) w) as (Htables0 & Hbusy0 & Hstmt0).
  destruct (select_yields (next_stmt w) "test" (Some ["x"])
              {| columns := ["x"]; rows := map (fun x => [VInteger x]) xs |}
              (map (fun x => [VInteger x]) xs) O
              (new_stmt (Select "test" (Some ["x"])) w) _ Hstmt0)
    as (ws & w_end & Hyields & Hrows).
  - rewrite Hbusy0. exact Hbusy.
  - reflexivity.
  - rewrite Htables0. exact Htable.
  - left. split; reflexivity.
  - reflexivity.
  - assert (Hlength : length ws = length xs).
    { apply Forall2_length in Hrows. rewrite !length_map in Hrows. congruence. }
    assert (Hvalues : map (Scenario.fetch_value {| stmt_ := next_stmt w |}) ws
                      = map to_uint64 xs).
    { rewrite (fetch_value_on_rows _ _ _ Hrows). rewrite !map_map. reflexivity. }
    clear Hrows.
    exists {| stmt_ := next_stmt w |}, (new_stmt (Select "test" (Some ["x"])) w).
    assert (Hprepared : Scenario.get_fetch_stmt w
                        = (Returns {| stmt_ := next_stmt w |},
                           new_stmt (Select "test" (Some ["x"])) w)).
    { apply Hctor. cbn [compiles]. rewrite Htable. reflexivity. }
    destruct Hyields as [w0 w_end Hstep | w0 w1 ws w_end Hstep Hrest].
    + eexists _, _, _, _. split; [exact Hprepared |].
      split; [exact (Query_ctor_done {| stmt_ := next_stmt w |} Scenario.fetch_value _ _ Hstep) |].
      split.
      * unfold begin, current. cbn [finished fetch_stmt_].
        rewrite collect_at_end. rewrite <- Hvalues. reflexivity.
      * reflexivity.
    + destruct (collect_from_row {| stmt_ := next_stmt w |} Scenario.fetch_value this
                  w1 ws w_end Hrest
                  (Scenario.fetch_value {| stmt_ := next_stmt w |} w1) fuel)
        as [q' [Hcollect Hfinished]]; [simpl in Hlength; lia |].
      eexists _, _, q', _. split; [exact Hprepared |].
      split; [exact (Query_ctor_row {| stmt_ := next_stmt w |} Scenario.fetch_value _ _ Hstep) |].
      split; [| exact Hfinished].
      rewrite <- Hvalues. exact Hcollect.
Qed.

End RefEngineFacts.

(* ------------------------------------------------------------------ *)
(** ** The metadata envelope on the reference engine *)

Section Envelope.
Import RefEngine RefEngineFacts Scenario.








Ltac read_text Hcol :=
  unfold column_text; cbn [sqlite3_column_text engine stmt_];
  rewrite Hcol by (vm_compute; discriminate); reflexivity.

(** The select statement of [read_metadata], prepared and stepped onto the
    only row of the table: the engine state is named [w1], the handle [h]. *)
Ltac on_the_row w h w1 Htable Hbusy Hstmt1 Hcol :=
  unfold read_metadata, try_catch, with_Statement, finally;
  unfold bind at 1;
  rewrite (Statement_ctor_ok select_metadata_sql (Select "_metadata" None) w eq_refl Hbusy)
    by (cbn [compiles]; rewrite Htable; reflexivity);
  let Htables0 := fresh "Htables" in
  let Hbusy0 := fresh "Hbusy" in
  let Hstmt0 := fresh "Hstmt" in
  let w0 := fresh "w" in
  let E := fresh "E" in
  destruct (new_stmt_facts (Select "_metadata" None) w) as (Htables0 & Hbusy0 & Hstmt0);
  rewrite <- Htables0 in Htable; rewrite <- Hbusy0 in Hbusy; clear Htables0 Hbusy0;
  remember (next_stmt w) as h eqn:E; clear E;
  remember (new_stmt (Select "_metadata" None) w) as w0 eqn:E; clear E w;
  unfold bind at 1;
  rewrite (step_fetch_row h w0 _ "_metadata" None _ O _ Hstmt0 Hbusy eq_refl Htable
             (or_introl (conj eq_refl eq_refl)) eq_refl);
  cbn [StepResult_eqb negb project rows columns prog params];
  match goal with
  | |- context [set_stmt h ?v w0] =>
      destruct (set_stmt_facts h v w0) as (Htables0 & Hbusy0 & Hstmt1);
      rewrite <- Htables0 in Htable; rewrite <- Hbusy0 in Hbusy;
      clear Htables0 Hbusy0 Hstmt0;
      remember (set_stmt h v w0) as w1 eqn:E; clear E w0
  end;
  pose proof (fun column Hcolumn =>
                column_value_on_row h w1 _ 1 _ column Hstmt1 eq_refl Hcolumn) as Hcol;
  rewrite bind_read; cbn [sqlite3_table_column_metadata engine];
  unfold table_column_metadata; rewrite Htable; cbn [columns].

(** Reading an envelope of the version-0 schema. *)
Lemma read_metadata_legacy (w : world) (t gd : Z) (fv tn ti : string) :
  tables w !! "_metadata"
  = Some {| columns := legacy_metadata_columns;
            rows := [[VInteger t; VText fv; VText tn; VText ti; VInteger gd]] |} ->
  busy w = false ->
  fst (read_metadata w)
  = Returns {| version := 0;
               metadata :=
                 {| type_ := to_uint32 (to_int t); format_version_ := c_str fv;
                    tool_name_ := c_str tn; tool_version_ := "1.0.0-prerelease";
                    tool_info_ := c_str ti; generation_date_ := to_uint64 gd |} |}.
Proof.
  intros Htable Hbusy.
  on_the_row w h w1 Htable Hbusy Hstmt1 Hcol.
  change (has_column "metadata_version" legacy_metadata_columns) with false.
  cbv iota. change (SQLITE_ERROR =? SQLITE_OK) with false. cbv iota.
  rewrite bind_ret. cbn [fst snd].
  rewrite bind_read.
  rewrite (bind_read_outcome _ _ _ (c_str fv)) by read_text Hcol.
  rewrite (bind_read_outcome _ _ _ (c_str tn)) by read_text Hcol.
  change (0 >=? 1) with false. cbv iota.
  rewrite bind_ret. cbn [fst snd].
  rewrite (bind_read_outcome _ _ _ (c_str ti)) by read_text Hcol.
  rewrite bind_read.
  unfold bind at 1.
  rewrite (step_fetch_done h w1 _ "_metadata" None _ 1%nat Hstmt1 Hbusy eq_refl Htable
             (or_intror (ex_intro _ _ eq_refl)) eq_refl).
  cbn [StepResult_eqb negb]. unfold ret. cbn [fst].
  unfold column_u32, column_u64. cbn [sqlite3_column_int sqlite3_column_int64 engine stmt_].
  rewrite !Hcol by (vm_compute; discriminate).
  reflexivity.
Qed.





(** C6.  Reading the envelope of a database whose [_metadata] table has
    the five legacy columns, and no [metadata_version] column, succeeds:
    the columns are read in their order, the schema version returned is 0
    and [tool_version] is ["1.0.0-prerelease"]. *)
Theorem read_legacy_metadata (w : world) (t gd : Z) (fv tn ti : string) :
  tables w !! "_metadata"
  = Some {| columns := legacy_metadata_columns;
            rows := [[VInteger t; VText fv; VText tn; VText ti; VInteger gd]] |} ->
  busy w = false ->
  sqlite3_table_column_metadata "_metadata" "metadata_version" w <> SQLITE_OK /\
  fst (read_metadata w)
  = Returns {| version := 0;
               metadata :=
                 {| type_ := to_uint32 (to_int t); format_version_ := c_str fv;
                    tool_name_ := c_str tn; tool_version_ := "1.0.0-prerelease";
                    tool_info_ := c_str ti; generation_date_ := to_uint64 gd |} |}.
Proof.
  intros Htable Hbusy. split.
  - cbn [sqlite3_table_column_metadata engine]. unfold table_column_metadata.
    rewrite Htable. vm_compute. discriminate.
  - exact (read_metadata_legacy w t gd fv tn ti Htable Hbusy).
Qed.

Lemma read_legacy_metadata_witness :
  sqlite3_table_column_metadata "_metadata" "metadata_version" legacy_db <> SQLITE_OK /\
  fst (read_metadata legacy_db)
  = Returns {| version := 0;
               metadata :=
                 {| type_ := to_uint32 (to_int 42); format_version_ := c_str "1.0.0-dummy";
                    tool_name_ := c_str "TestMetaDataWriter";
                    tool_version_ := "1.0.0-prerelease";
                    tool_info_ := c_str "Tests version 1.0.0";
                    generation_date_ := to_uint64 42424242 |} |}.
Proof.
  apply (read_legacy_metadata legacy_db 42 42424242 "1.0.0-dummy" "TestMetaDataWriter"
           "Tests version 1.0.0").
  - vm_compute. reflexivity.
  - reflexivity.
Defined.

(** A database opened on a legacy envelope caches version 0, and
    [set_metadata] on it is refused. *)
Lemma legacy_database_refuses_set_metadata (new_metadata : Metadata) :
  exists (rdb : ResourceDatabase) (w : world),
    from_db legacy_db = (Returns rdb, w) /\ md_version_ rdb = 0 /\
    fst (set_metadata new_metadata (rdb, w))
    = Throws (WriteMetadataError
                "Can't set the metadata with different metadata version than the current").
Proof.
  eexists. eexists. split; [vm_compute; reflexivity |].
  split; [reflexivity |].
  vm_compute. reflexivity.
Qed.

End Envelope.

(* ------------------------------------------------------------------ *)
(** ** The integer policies, one by one *)

Section IntegerPolicies.
Import RefEngine Scenario.

Lemma to_int64_high (z : Z) : INT64_MAX < z < 2 ^ 64 -> to_int64 z = z - 2 ^ 64.
Proof.
  unfold_ints. intros Hz.
  replace (z + 9223372036854775808)
    with (z - 9223372036854775808 + 1 * 18446744073709551616) by lia.
  rewrite Z.mod_add by lia. rewrite Z.mod_small; lia.
Qed.

Lemma to_int_small (z : Z) : is_int32 z -> to_int z = z.
Proof. unfold is_int32. unfold_ints. intros Hz. rewrite Z.mod_small; lia. Qed.

Lemma to_int_high (z : Z) : INT_MAX < z < 2 ^ 32 -> to_int z = z - 2 ^ 32.
Proof.
  unfold_ints. intros Hz.
  replace (z + 2147483648) with (z - 2147483648 + 1 * 4294967296) by lia.
  rewrite Z.mod_add by lia. rewrite Z.mod_small; lia.
Qed.

(** The scenario with a binding through [sqlite3_bind_int]: the reference
    engine stores the value as it does for [sqlite3_bind_int64]. *)
Lemma store_then_fetch_int (enc dec : Z -> Z) (val : Z) :
  fst (store_then_fetch
         (fun s i x n =>
            let* sqlite_result := call (sqlite3_bind_int (stmt_ s) i (enc x)) in
            bind_result sqlite_result n)
         (fun s c w => dec (column_i64 s c w)) val from_memory)
  = Returns (dec (enc val)).
Proof. exact (store_then_fetch_i64 enc dec val). Qed.

(** X1.  The cast policy on 64-bit values round-trips: the two casts of
    [bind_arg_cast(int, std::uint64_t)] and [column_u64] are inverse on
    every [std::uint64_t], and a value inserted with the one is read back
    by the other. *)
Theorem cast_u64_round_trip (v : Z) :
  is_uint64 v ->
  to_uint64 (to_int64 v) = v /\
  fst (store_then_fetch bind_arg_cast_u64 column_u64 v from_memory) = Returns v.
Proof.
  intros Hv. split; [exact (to_uint64_to_int64 v Hv) |].
  etransitivity; [exact (store_then_fetch_i64 to_int64 to_uint64 v) |].
  rewrite (to_uint64_to_int64 v Hv). reflexivity.
Qed.

Lemma cast_u64_round_trip_witness :
  to_uint64 (to_int64 (2 ^ 64 - 1)) = 2 ^ 64 - 1 /\
  fst (store_then_fetch bind_arg_cast_u64 column_u64 (2 ^ 64 - 1) from_memory)
  = Returns (2 ^ 64 - 1).
Proof.
  apply (cast_u64_round_trip (2 ^ 64 - 1)). unfold is_uint64. lia.
Defined.

(** X2.  The cast policy does not keep the order of the values in the
    database: a value up to [INT64_MAX] is stored as itself, a value above
    it as the negative integer [b - 2^64], so the greater one is stored as
    the smaller. *)
Theorem cast_u64_reverses_order (a b : Z) :
  0 <= a <= INT64_MAX ->
  INT64_MAX < b < 2 ^ 64 ->
  fst (store_then_fetch bind_arg_cast_u64 column_i64 a from_memory) = Returns a /\
  fst (store_then_fetch bind_arg_cast_u64 column_i64 b from_memory) = Returns (b - 2 ^ 64) /\
  b - 2 ^ 64 < 0 <= a.
Proof.
  intros Ha Hb. split; [| split].
  - etransitivity; [exact (store_then_fetch_i64 to_int64 (fun z => z) a) |].
    cbv beta. rewrite to_int64_small; [reflexivity | unfold_ints; lia].
  - etransitivity; [exact (store_then_fetch_i64 to_int64 (fun z => z) b) |].
    cbv beta. rewrite (to_int64_high b Hb). reflexivity.
  - unfold_ints. lia.
Qed.

Lemma cast_u64_reverses_order_witness :
  fst (store_then_fetch bind_arg_cast_u64 column_i64 1 from_memory) = Returns 1 /\
  fst (store_then_fetch bind_arg_cast_u64 column_i64 (2 ^ 63) from_memory)
  = Returns (2 ^ 63 - 2 ^ 64) /\
  2 ^ 63 - 2 ^ 64 < 0 <= 1.
Proof.
  apply (cast_u64_reverses_order 1 (2 ^ 63)); unfold INT64_MAX; lia.
Defined.

(** X3.  The two slide conversions are bijections between [std::uint64_t]
    and [std::int64_t]: each lands in the range of its result type, and
    encoding a decoded value gives the value back. *)
Theorem slide_is_bijection (v x : Z) :
  is_uint64 v -> is_int64 x ->
  is_int64 (unsigned_to_signed_int64 v) /\
  is_uint64 (signed_to_unsigned_int64 x) /\
  unsigned_to_signed_int64 (signed_to_unsigned_int64 x) = x.
Proof.
  intros Hv Hx.
  rewrite (unsigned_to_signed_int64_eq v Hv), (signed_to_unsigned_int64_eq x Hx).
  split; [unfold_ints; lia |]. split; [unfold_ints; lia |].
  rewrite unsigned_to_signed_int64_eq; unfold_ints; lia.
Qed.

Lemma slide_is_bijection_witness :
  is_int64 (unsigned_to_signed_int64 0) /\
  is_uint64 (signed_to_unsigned_int64 (- 1)) /\
  unsigned_to_signed_int64 (signed_to_unsigned_int64 (- 1)) = - 1.
Proof.
  apply (slide_is_bijection 0 (- 1)).
  - unfold is_uint64. lia.
  - unfold is_int64. lia.
Defined.

(** X4.  A value inserted with the slide policy must be read with
    [column_u64_slide]: [column_u64] reads it as [(v + 2^63) mod 2^64],
    which is never the value inserted. *)
Theorem slide_needs_its_inverse (v : Z) :
  is_uint64 v ->
  fst (store_then_fetch bind_arg_slide column_u64 v from_memory)
  = Returns ((v + 2 ^ 63) mod 2 ^ 64) /\
  (v + 2 ^ 63) mod 2 ^ 64 <> v.
Proof.
  intros Hv. split.
  - etransitivity; [exact (store_then_fetch_i64 unsigned_to_signed_int64 to_uint64 v) |].
    rewrite (unsigned_to_signed_int64_eq v Hv). f_equal. unfold_ints.
    replace (v + 9223372036854775808)
      with (v - 9223372036854775808 + 1 * 18446744073709551616) by lia.
    rewrite Z.mod_add by lia. reflexivity.
  - unfold_ints. destruct (Z_lt_le_dec v 9223372036854775808).
    + rewrite Z.mod_small; lia.
    + replace (v + 9223372036854775808)
        with (v - 9223372036854775808 + 1 * 18446744073709551616) by lia.
      rewrite Z.mod_add by lia. rewrite Z.mod_small; lia.
Qed.

Lemma slide_needs_its_inverse_witness :
  fst (store_then_fetch bind_arg_slide column_u64 42 from_memory)
  = Returns ((42 + 2 ^ 63) mod 2 ^ 64) /\
  (42 + 2 ^ 63) mod 2 ^ 64 <> 42.
Proof.
  apply (slide_needs_its_inverse 42). unfold is_uint64. lia.
Defined.

(** X5.  The throw policy on 32-bit values, in range: for
    [value <= INT_MAX], [bind_arg_throw(int, uint32_t)] hands the value
    itself to [sqlite3_bind_int64] and returns when the engine accepts the
    binding, and the value inserted is read back by [column_u32]. *)
Theorem bind_arg_throw_u32_in_range {W : Type} {engine : Engine W}
    (this : Statement) (index : Z) (name : string) (w w' : W) (v : Z) :
  0 <= v <= INT_MAX ->
  sqlite3_bind_int64 (stmt_ this) index v w = (SQLITE_OK, w') ->
  bind_arg_throw_u32 this index v name w = (Returns tt, w') /\
  fst (store_then_fetch bind_arg_throw_u32 column_u32 v from_memory) = Returns v.
Proof.
  intros Hv Hbind.
  assert (Hfits : to_int v = v) by (apply to_int_small; unfold is_int32; unfold_ints; lia).
  split.
  - unfold bind_arg_throw_u32.
    rewrite to_uint32_INT_MAX, (in_range_not_gtb v INT_MAX) by lia.
    unfold bind, call. rewrite Hfits, Hbind. reflexivity.
  - unfold store_then_fetch, bind_arg_throw_u32.
    rewrite to_uint32_INT_MAX, (in_range_not_gtb v INT_MAX) by lia.
    etransitivity;
      [exact (store_then_fetch_i64 to_int (fun z => to_uint32 (to_int z)) v) |].
    cbv beta. rewrite to_int_to_int, to_uint32_to_int; [reflexivity | unfold_ints; lia].
Qed.

Lemma bind_arg_throw_u32_in_range_witness :
  bind_arg_throw_u32 insert_statement 1 42 "x" insert_ready
  = (Returns tt, snd (sqlite3_bind_int64 1%positive 1 42 insert_ready)) /\
  fst (store_then_fetch bind_arg_throw_u32 column_u32 42 from_memory) = Returns 42.
Proof.
  apply (bind_arg_throw_u32_in_range insert_statement 1 "x" insert_ready
           (snd (sqlite3_bind_int64 1%positive 1 42 insert_ready)) 42).
  - unfold INT_MAX. lia.
  - vm_compute. reflexivity.
Defined.

(** X6.  The cast policy on 32-bit values: a value inserted with
    [bind_arg_cast(int, std::uint32_t)] is read back by [column_u32]; in
    the database it is the value itself up to [INT_MAX], and the negative
    integer [v - 2^32] above. *)
Theorem cast_u32_round_trip (v : Z) :
  is_uint32 v ->
  fst (store_then_fetch bind_arg_cast_u32 column_u32 v from_memory) = Returns v /\
  fst (store_then_fetch bind_arg_cast_u32 column_i64 v from_memory)
  = Returns (if v <=? INT_MAX then v else v - 2 ^ 32).
Proof.
  intros Hv. split.
  - etransitivity;
      [exact (store_then_fetch_int to_int (fun z => to_uint32 (to_int z)) v) |].
    cbv beta. rewrite to_int_to_int, (to_uint32_to_int v Hv). reflexivity.
  - etransitivity; [exact (store_then_fetch_int to_int (fun z => z) v) |].
    cbv beta. f_equal. destruct (Z.leb_spec v INT_MAX).
    + apply to_int_small. unfold is_int32. unfold_ints. lia.
    + apply to_int_high. unfold_ints. lia.
Qed.

Lemma cast_u32_round_trip_witness :
  fst (store_then_fetch bind_arg_cast_u32 column_u32 (2 ^ 32 - 1) from_memory)
  = Returns (2 ^ 32 - 1) /\
  fst (store_then_fetch bind_arg_cast_u32 column_i64 (2 ^ 32 - 1) from_memory)
  = Returns (if 2 ^ 32 - 1 <=? INT_MAX then 2 ^ 32 - 1 else 2 ^ 32 - 1 - 2 ^ 32).
Proof.
  apply (cast_u32_round_trip (2 ^ 32 - 1)). unfold is_uint32. lia.
Defined.

(** X7.  The extend policy keeps the value in the database: a
    [std::uint32_t] inserted with [bind_arg_extend] is stored as itself, and
    read back as itself by [column_i64], [column_u64] and [column_u32]; so
    is a value of the four narrower types, each of which is in the range of
    [int], read back by [column_i64] and [column_i32]. *)
Theorem extend_keeps_value (u v : Z) :
  is_uint32 u ->
  is_int32 v ->
  fst (store_then_fetch bind_arg_extend_u32 column_i64 u from_memory) = Returns u /\
  fst (store_then_fetch bind_arg_extend_u32 column_u64 u from_memory) = Returns u /\
  fst (store_then_fetch bind_arg_extend_u32 column_u32 u from_memory) = Returns u /\
  fst (store_then_fetch bind_arg_extend_u16 column_i64 v from_memory) = Returns v /\
  fst (store_then_fetch bind_arg_extend_u8 column_i64 v from_memory) = Returns v /\
  fst (store_then_fetch bind_arg_extend_i16 column_i64 v from_memory) = Returns v /\
  fst (store_then_fetch bind_arg_extend_i8 column_i64 v from_memory) = Returns v /\
  fst (store_then_fetch bind_arg_extend_i16 column_i32 v from_memory) = Returns v.
Proof.
  intros Hu Hv.
  assert (Hfits : to_int64 u = u) by (apply to_int64_small; unfold_ints; lia).
  assert (H64 : fst (store_then_fetch
                       (fun s i x n =>
                          let* sqlite_result := call (sqlite3_bind_int (stmt_ s) i (to_int x)) in
                          bind_result sqlite_result n)
                       column_i64 v from_memory) = Returns v).
  { etransitivity; [exact (store_then_fetch_int to_int (fun z => z) v) |].
    cbv beta. rewrite (to_int_small v Hv). reflexivity. }
  split; [| split; [| split]].
  - etransitivity; [exact (store_then_fetch_i64 to_int64 (fun z => z) u) |].
    cbv beta. rewrite Hfits. reflexivity.
  - etransitivity; [exact (store_then_fetch_i64 to_int64 to_uint64 u) |].
    rewrite to_uint64_to_int64; [reflexivity | unfold_ints; lia].
  - etransitivity;
      [exact (store_then_fetch_i64 to_int64 (fun z => to_uint32 (to_int z)) u) |].
    cbv beta. rewrite Hfits, (to_uint32_to_int u Hu). reflexivity.
  - repeat split; try exact H64.
    etransitivity; [exact (store_then_fetch_int to_int to_int v) |].
    rewrite !(to_int_small v Hv). reflexivity.
Qed.

Lemma extend_keeps_value_witness :
  fst (store_then_fetch bind_arg_extend_u32 column_i64 (2 ^ 32 - 1) from_memory)
  = Returns (2 ^ 32 - 1) /\
  fst (store_then_fetch bind_arg_extend_i8 column_i64 (- 128) from_memory)
  = Returns (- 128).
Proof.
  destruct (extend_keeps_value (2 ^ 32 - 1) (- 128)) as (Hu & _ & _ & _ & _ & _ & Hv & _).
  - unfold is_uint32. lia.
  - unfold is_int32. lia.
  - split; [exact Hu | exact Hv].
Defined.

(** X8.  The signed overloads of [bind_arg] store the value as it is: an
    [std::int64_t] is read back by [column_i64], an [std::int32_t] by
    [column_i32] and by [column_i64]. *)
Theorem signed_round_trip (x y : Z) :
  is_int64 x -> is_int32 y ->
  fst (store_then_fetch bind_arg_i64 column_i64 x from_memory) = Returns x /\
  fst (store_then_fetch bind_arg_i32 column_i32 y from_memory) = Returns y /\
  fst (store_then_fetch bind_arg_i32 column_i64 y from_memory) = Returns y.
Proof.
  intros Hx Hy. split; [| split].
  - exact (store_then_fetch_i64 (fun z => z) (fun z => z) x).
  - etransitivity; [exact (store_then_fetch_int (fun z => z) to_int y) |].
    cbv beta. rewrite (to_int_small y Hy). reflexivity.
  - exact (store_then_fetch_int (fun z => z) (fun z => z) y).
Qed.

Lemma signed_round_trip_witness :
  fst (store_then_fetch bind_arg_i64 column_i64 (- 2 ^ 63) from_memory)
  = Returns (- 2 ^ 63) /\
  fst (store_then_fetch bind_arg_i32 column_i32 (- 1) from_memory) = Returns (- 1) /\
  fst (store_then_fetch bind_arg_i32 column_i64 (- 1) from_memory) = Returns (- 1).
Proof.
  apply (signed_round_trip (- 2 ^ 63) (- 1)).
  - unfold is_int64. lia.
  - unfold is_int32. lia.
Defined.

End IntegerPolicies.

(* ------------------------------------------------------------------ *)
(** ** Texts, blobs and NULL *)

Section TextBlobNull.
Import RefEngine RefEngineFacts Scenario.



















(** X12.  The getters on a column that holds NULL: the type is [Null],
    the integer getters return 0, [column_u64_slide] returns [2^63],
    [column_blob] a null pointer and the size 0; [column_text] builds a
    [std::string] from a null pointer, which is not defined. *)
Theorem getters_on_null (h : positive) (column : Z) (w : world) :
  column_value h column w = VNull ->
  column_type {| stmt_ := h |} column w = Returns Null /\
  column_i64 {| stmt_ := h |} column w = 0 /\
  column_u64 {| stmt_ := h |} column w = 0 /\
  column_i32 {| stmt_ := h |} column w = 0 /\
  column_u32 {| stmt_ := h |} column w = 0 /\
  column_u64_slide {| stmt_ := h |} column w = 2 ^ 63 /\
  column_text {| stmt_ := h |} column w = Undefined /\
  column_blob {| stmt_ := h |} column w = (None, 0).
Proof.
  intros Hnull.
  unfold column_type, column_i64, column_u64, column_i32, column_u32, column_u64_slide,
    column_text, column_blob.
  cbn [sqlite3_column_type sqlite3_column_int64 sqlite3_column_int sqlite3_column_text
       sqlite3_column_blob sqlite3_column_bytes engine stmt_].
  rewrite Hnull. repeat split.
Qed.

(** The row inserted with [bind_null]. *)
Lemma getters_on_null_witness :
  column_type fetch_statement 0 (fetched VNull) = Returns Null /\
  column_text fetch_statement 0 (fetched VNull) = Undefined /\
  column_u64_slide fetch_statement 0 (fetched VNull) = 2 ^ 63.
Proof.
  destruct (getters_on_null 2 0 (fetched VNull))
    as (Htype & _ & _ & _ & _ & Hslide & Htext & _).
  - vm_compute. reflexivity.
  - split; [exact Htype |]. split; [exact Htext | exact Hslide].
Defined.



End TextBlobNull.

(** X14.  [to_type] returns a type for the five type codes of the engine
    only, and a different type for each. *)
Theorem to_type_injective (a b : Z) (t : Type_) :
  to_type a = Returns t -> to_type b = Returns t ->
  a = b /\ SQLITE_INTEGER <= a <= SQLITE_NULL.
Proof.
  unfold to_type, SQLITE_INTEGER, SQLITE_FLOAT, SQLITE_TEXT, SQLITE_BLOB, SQLITE_NULL.
  intros Ha Hb.
  repeat match type of Ha with
         | context [?x =? ?y] => destruct (Z.eqb_spec x y)
         end; try discriminate;
  repeat match type of Hb with
         | context [?x =? ?y] => destruct (Z.eqb_spec x y)
         end; try discriminate;
  injection Ha as <-; try discriminate; (split; lia).
Qed.

Lemma to_type_injective_witness :
  SQLITE_TEXT = SQLITE_TEXT /\ SQLITE_INTEGER <= SQLITE_TEXT <= SQLITE_NULL.
Proof.
  apply (to_type_injective SQLITE_TEXT SQLITE_TEXT Text); reflexivity.
Defined.

(* ------------------------------------------------------------------ *)
(** ** Using a statement again *)

Section StatementReuse.
Import RefEngine Scenario.

(** X15.  A statement is used again after [reset], which keeps its
    bindings, and [clear_bindings] sets them to NULL: the insert statement
    of the tests, bound once, stepped, reset and stepped again, then reset,
    cleared and stepped, inserts the value twice and then NULL. *)
Theorem statement_reuse (x : Z) :
  let run :=
    (create_test_table ;;
     let* statement := get_insert_stmt in
     bind_arg_i64 statement 1 x "x" ;;
     step statement ;;
     reset statement ;;
     step statement ;;
     reset statement ;;
     clear_bindings statement ;;
     step statement) from_memory in
  fst run = Returns Done /\
  tables (snd run) !! "test"
  = Some {| columns := ["x"]; rows := [[VInteger x]; [VInteger x]; [VNull]] |}.
Proof.
  split; vm_compute; reflexivity.
Qed.

End StatementReuse.

(* ------------------------------------------------------------------ *)
(** ** Queries: one pass, failures, iterators left behind *)

Section QueryFailures.
Context {W : Type} {engine : Engine W} {T : Type}.

(** X16.  A query is consumed by its first pass: once a range made from
    [begin()] and [end()] was collected, the query is finished, and a
    second range made from its [begin()] is empty and steps nothing. *)
Theorem query_is_single_pass (stmt : Statement) (f : Statement -> W -> T) (this : QueryPtr)
    (w : W) (ws : list W) (w_end : W) (fuel fuel' : nat) :
  yields (stmt_ stmt) w ws w_end ->
  (length ws <= fuel)%nat ->
  exists (q : Query W T) (w1 : W) (q' : Query W T) (w2 : W),
    Query_ctor stmt f w = (Returns q, w1) /\
    collect fuel (begin this q) end_ (q, w1)
    = (Returns (Some (map (f stmt) ws)), (q', w2)) /\
    collect fuel' (begin this q') end_ (q', w2) = (Returns (Some nil), (q', w2)).
Proof.
  intros Hyields Hfuel.
  destruct Hyields as [w w_end Hstep | w w1 ws w_end Hstep Hrest].
  - eexists _, _, _, _.
    split; [exact (Query_ctor_done stmt f w w_end Hstep) |].
    split; [apply collect_at_end | apply collect_at_end].
  - destruct (collect_from_row stmt f this w1 ws w_end Hrest (f stmt w1) fuel)
      as [q' [Hcollect Hfinished]]; [simpl in Hfuel; lia |].
    eexists _, _, q', _.
    split; [exact (Query_ctor_row stmt f w w1 Hstep) |].
    split; [exact Hcollect |].
    unfold begin, current. rewrite Hfinished. apply collect_at_end.
Qed.

(** X17.  When [step] throws, the exception leaves the constructor of the
    query and the increment of the iterator as it is.  The constructor
    finalizes the statement it was given; the increment leaves the query as
    it was, with its statement and its current value. *)
Theorem query_step_failure (stmt : Statement) (f : Statement -> W -> T)
    (q : Query W T) (this : QueryPtr) (w w' : W) (e : exception) :
  step stmt w = (Throws e, w') ->
  fetch_stmt_ q = Some stmt ->
  Query_ctor stmt f w = (Throws e, Statement_dtor stmt w') /\
  Iterator_preincrement {| query_ := Some this |} (q, w) = (Throws e, (q, w')).
Proof.
  intros Hstep Hheld. split.
  - unfold Query_ctor, unwind, bind. rewrite Hstep. reflexivity.
  - unfold Iterator_preincrement, bind, get_fst, on_snd.
    cbn [query_ fst snd]. rewrite Hheld. cbn [fst snd]. rewrite Hstep. reflexivity.
Qed.

(** X18.  The iterators of a query share its state, and only the one that
    is incremented learns of the end.  When the statement has no more row,
    [it++] returns the end iterator and the query releases its statement;
    [it] itself still points to the query, is not equal to [end()],
    dereferences to the last value, and incrementing it is not defined. *)
Theorem stale_iterator_after_end (q : Query W T) (stmt : Statement) (this : QueryPtr)
    (w w_end : W) :
  fetch_stmt_ q = Some stmt ->
  sqlite3_step (stmt_ stmt) w = (SQLITE_DONE, w_end) ->
  let it := {| query_ := Some this |} in
  let q' := {| current_ := current_ q; fetch_stmt_ := None; f_ := f_ q |} in
  Iterator_postincrement it (q, w) = (Returns end_, (q', Statement_dtor stmt w_end)) /\
  Iterator_eqb it end_ = false /\
  Iterator_deref it q' = Iterator_deref it q /\
  Iterator_preincrement it (q', Statement_dtor stmt w_end)
  = (Undefined, (q', Statement_dtor stmt w_end)).
Proof.
  intros Hheld Hstep it q'. split; [| split; [| split]].
  - exact (preincrement_done q stmt this w w_end Hheld Hstep).
  - reflexivity.
  - reflexivity.
  - reflexivity.
Qed.

End QueryFailures.

Section QueryFailuresOnTheReferenceEngine.
Import RefEngine Scenario.

(** [test_iter_double], collected twice. *)
Lemma query_is_single_pass_witness :
  exists (q : Query world Z) (w1 : world) (q' : Query world Z) (w2 : world),
    Query_ctor fetch_statement fetch_value two_rows = (Returns q, w1) /\
    collect 2 (begin 1%positive q) end_ (q, w1)
    = (Returns (Some (map (fetch_value fetch_statement) [two_rows_1; two_rows_2]%list)),
       (q', w2)) /\
    collect 5 (begin 1%positive q') end_ (q', w2) = (Returns (Some nil), (q', w2)).
Proof.
  apply (query_is_single_pass fetch_statement fetch_value 1%positive two_rows
           [two_rows_1; two_rows_2]%list two_rows_end 2 5).
  - exact two_rows_yields.
  - simpl. lia.
Defined.

(** The query of [test_iter_single], advanced while another connection
    holds the lock. *)
Lemma query_step_failure_witness :
  Iterator_preincrement {| query_ := Some 1%positive |} (single_query, locked one_row_1)
  = (Throws (DatabaseBusy "Database busy: database is locked"),
     (single_query, snd (step fetch_statement (locked one_row_1)))).
Proof.
  destruct (query_step_failure fetch_statement fetch_value single_query 1%positive
              (locked one_row_1) (snd (step fetch_statement (locked one_row_1)))
              (DatabaseBusy "Database busy: database is locked")) as [_ Hincrement].
  - vm_compute. reflexivity.
  - reflexivity.
  - exact Hincrement.
Defined.

(** The query of [test_iter_single], advanced past its only row. *)
Lemma stale_iterator_after_end_witness :
  Iterator_eqb {| query_ := Some 1%positive |} end_ = false /\
  Iterator_preincrement {| query_ := Some 1%positive |}
    (exhausted_query, Statement_dtor fetch_statement one_row_end)
  = (Undefined, (exhausted_query, Statement_dtor fetch_statement one_row_end)).
Proof.
  destruct (stale_iterator_after_end single_query fetch_statement 1%positive
              one_row_1 one_row_end) as (_ & Hend & _ & Hstale).
  - reflexivity.
  - vm_compute. reflexivity.
  - split; [exact Hend | exact Hstale].
Defined.

End QueryFailuresOnTheReferenceEngine.

(* ------------------------------------------------------------------ *)
(** ** The exceptions of the envelope *)

Section ExceptionsLetOut.
Context {W : Type} {engine : Engine W}.

Lemma throws_only_ret {S A : Type} (allowed : exception -> bool) (a : A) :
  throws_only allowed (@ret S A a).
Proof. intros s e He. discriminate. Qed.

Lemma throws_only_throw {S A : Type} (allowed : exception -> bool) (e : exception) :
  allowed e = true -> throws_only allowed (@throw S A e).
Proof. intros Hallowed s e' He. injection He as <-. exact Hallowed. Qed.

Lemma throws_only_read {S A : Type} (allowed : exception -> bool) (f : S -> A) :
  throws_only allowed (read f).
Proof. intros s e He. discriminate. Qed.

Lemma throws_only_bind {S A B : Type} (allowed : exception -> bool) (m : St S A)
    (k : A -> St S B) :
  throws_only allowed m -> (forall a, throws_only allowed (k a)) ->
  throws_only allowed (let* x := m in k x).
Proof.
  intros Hm Hk s e He. unfold bind in He.
  destruct (m s) as [[a | e' |] s'] eqn:Hms.
  - exact (Hk a s' e He).
  - simpl in He. injection He as <-. apply (Hm s). rewrite Hms. reflexivity.
  - discriminate.
Qed.

Lemma throws_only_finally {S A : Type} (allowed : exception -> bool) (m : St S A)
    (dtor : S -> S) :
  throws_only allowed m -> throws_only allowed (finally m dtor).
Proof.
  intros Hm s e He. unfold finally in He.
  destruct (m s) as [[a | e' |] s'] eqn:Hms; try discriminate.
  simpl in He. injection He as <-. apply (Hm s). rewrite Hms. reflexivity.
Qed.

(** [column_text] never throws: it returns or is undefined. *)
Lemma throws_only_column_text (allowed : exception -> bool) (this : Statement) (column : Z) :
  throws_only allowed (read_outcome (column_text this column)).
Proof.
  intros s e He. unfold read_outcome, column_text in He. simpl in He.
  destruct (sqlite3_column_text (stmt_ this) column s); discriminate.
Qed.

Lemma throws_only_step (allowed : exception -> bool) (this : Statement) :
  (forall what, allowed (DatabaseBusy what) = true) ->
  (forall what, allowed (logic_error what) = true) ->
  (forall what, allowed (DatabaseError what) = true) ->
  throws_only allowed (step this).
Proof.
  intros Hbusy Hlogic Herror s e He. unfold step, bind, call in He.
  destruct (sqlite3_step (stmt_ this) s) as [rc s'].
  destruct (rc =? SQLITE_ROW); [discriminate |].
  destruct (rc =? SQLITE_DONE); [discriminate |].
  destruct (rc =? SQLITE_BUSY); [injection He as <-; apply Hbusy |].
  destruct (rc =? SQLITE_MISUSE); injection He as <-; [apply Hlogic | apply Herror].
Qed.

Lemma throws_only_Statement_ctor (allowed : exception -> bool) (stmt_str : string) :
  (forall what, allowed (DatabaseError what) = true) ->
  throws_only allowed (Statement_ctor stmt_str).
Proof.
  intros Herror s e He. unfold Statement_ctor in He.
  destruct (sqlite3_prepare_v2 stmt_str s) as [[rc h] s'].
  destruct (nonzero rc); [| discriminate].
  injection He as <-. apply Herror.
Qed.

(** X19.  Whatever the engine does, the only exceptions [read_metadata]
    lets out are [ReadMetadataError] and, when the engine reports a misuse
    of the statement, [std::logic_error]: every [DatabaseError], with
    [DatabaseBusy], is turned into [ReadMetadataError] by its handler. *)
Theorem read_metadata_throws_only :
  throws_only is_ReadMetadataError_or_logic_error read_metadata.
Proof.
  assert (Hblock : forall m : St W VersionedMetadata,
             throws_only in_read_block m ->
             throws_only is_ReadMetadataError_or_logic_error
               (try_catch m is_DatabaseError
                  (ReadMetadataError "Missing metadata. Is this a resource database?"))).
  { intros m Hm s e He. unfold try_catch in He.
    destruct (m s) as [[a | e' |] s'] eqn:Hms; try discriminate.
    pose proof (Hm s e') as Hin. rewrite Hms in Hin. specialize (Hin eq_refl).
    simpl in He. destruct (is_DatabaseError e') eqn:Hdb.
    - injection He as <-. reflexivity.
    - injection He as <-. unfold in_read_block in Hin. rewrite Hdb in Hin. exact Hin. }
  apply Hblock. unfold with_Statement.
  apply throws_only_bind; [apply throws_only_Statement_ctor; reflexivity |].
  intros stmt. apply throws_only_finally.
  apply throws_only_bind; [apply throws_only_step; reflexivity |].
  intros r. destruct (negb (StepResult_eqb r Row)); [apply throws_only_throw; reflexivity |].
  apply throws_only_bind; [apply throws_only_read |]. intros found.
  apply throws_only_bind.
  { destruct (found =? SQLITE_OK); [| apply throws_only_ret].
    apply throws_only_bind; [apply throws_only_read |]. intros v.
    destruct (v >? metadata_version);
      [apply throws_only_throw; reflexivity | apply throws_only_ret]. }
  intros versioned. cbv zeta.
  apply throws_only_bind; [apply throws_only_read |]. intros md_type.
  apply throws_only_bind; [apply throws_only_column_text |]. intros fv.
  apply throws_only_bind; [apply throws_only_column_text |]. intros tn.
  apply throws_only_bind.
  { destruct (fst versioned >=? 1); [| apply throws_only_ret].
    apply throws_only_bind; [apply throws_only_column_text |]. intros tv.
    apply throws_only_ret. }
  intros tvc.
  apply throws_only_bind; [apply throws_only_column_text |]. intros ti.
  apply throws_only_bind; [apply throws_only_read |]. intros gd.
  apply throws_only_bind; [apply throws_only_step; reflexivity |]. intros r'.
  destruct (negb (StepResult_eqb r' Done));
    [apply throws_only_throw; reflexivity | apply throws_only_ret].
Qed.

(** X20.  [set_metadata] changes the cached envelope only once the
    database was updated: when it returns, the cache holds the new envelope
    and the cached version, which is the current one, is kept; when it does
    not return, whatever [update_metadata] did, the object is as it was. *)
Theorem set_metadata_keeps_cache_on_failure (this this' : ResourceDatabase)
    (new_metadata : Metadata) (w w' : W) (r : outcome unit) :
  set_metadata new_metadata (this, w) = (r, (this', w')) ->
  (r = Returns tt ->
   this' = {| md_ := new_metadata; md_version_ := md_version_ this |} /\
   md_version_ this = metadata_version) /\
  (r <> Returns tt -> this' = this).
Proof.
  unfold set_metadata, bind, get_fst, on_snd, put_fst. cbn [fst snd].
  destruct (Z.eqb_spec (md_version_ this) metadata_version) as [Heq | Hne]; cbn [negb fst snd].
  - destruct (update_metadata new_metadata w) as [[[] | e |] w2]; cbn [fst snd];
      intros Hrun; inversion Hrun; subst; split; intros Hr;
      try discriminate; try contradiction; try reflexivity.
    split; [reflexivity | exact Heq].
  - intros Hrun. inversion Hrun; subst. split; intros Hr; [discriminate | reflexivity].
Qed.

End ExceptionsLetOut.

Section EnvelopeFailures.
Import RefEngine RefEngineFacts Scenario.

(** [set_metadata] while another connection holds the lock. *)
Lemma set_metadata_keeps_cache_on_failure_witness :
  fst (snd (set_metadata dummy_md_2
              ({| md_ := dummy_md; md_version_ := 1 |}, locked resource_db)))
  = {| md_ := dummy_md; md_version_ := 1 |}.
Proof.
  assert (Hrun : set_metadata dummy_md_2
                   ({| md_ := dummy_md; md_version_ := 1 |}, locked resource_db)
                 = (Throws (DatabaseError
                              "Can't prepare query statement: database is locked"),
                    ({| md_ := dummy_md; md_version_ := 1 |}, locked resource_db))).
  { vm_compute. reflexivity. }
  destruct (set_metadata_keeps_cache_on_failure _ _ _ _ _ _ Hrun) as [_ Hfailure].
  rewrite Hrun. apply Hfailure. discriminate.
Defined.

(** X21.  [create_metadata], and [convert_db] with it, refuses a database
    that already has a [_metadata] table or is locked: the failure of the
    [create table] is turned into [WriteMetadataError], and the database is
    as it was. *)
Theorem create_metadata_refused (w : world) (md : Metadata) :
  is_Some (tables w !! "_metadata") \/ busy w = true ->
  create_metadata md w = (Throws metadata_exists, w) /\
  convert_db md w = (Throws metadata_exists, w).
Proof.
  intros Hrefused.
  assert (Hexec : exists rc, sqlite3_exec create_table_metadata_sql w = (rc, w) /\ rc <> 0).
  { cbn [sqlite3_exec engine]. unfold exec.
    change (parse create_table_metadata_sql)
      with (Some (CreateTable "_metadata" metadata_columns)).
    cbv iota. destruct (busy w) eqn:Hbusy.
    - exists SQLITE_BUSY. split; [reflexivity | discriminate].
    - destruct Hrefused as [[t Htable] | Hlocked]; [| discriminate].
      cbn [compiles]. rewrite Htable. exists SQLITE_ERROR. split; [reflexivity | discriminate]. }
  destruct Hexec as (rc & Hexec & Hrc).
  assert (Hcreate : create_metadata md w = (Throws metadata_exists, w)).
  { unfold create_metadata. unfold bind at 1. unfold try_catch, Database_exec, bind, call.
    rewrite Hexec. unfold nonzero. destruct (Z.eqb_spec rc 0); [contradiction |].
    reflexivity. }
  split; [exact Hcreate |].
  unfold convert_db, bind. rewrite Hcreate. reflexivity.
Qed.

(** [test_convert_twice] *)
Lemma create_metadata_refused_witness :
  create_metadata dummy_md resource_db = (Throws metadata_exists, resource_db) /\
  convert_db dummy_md resource_db = (Throws metadata_exists, resource_db).
Proof.
  apply (create_metadata_refused resource_db dummy_md).
  left. exists {| columns := metadata_columns; rows := [envelope_row dummy_md] |}.
  vm_compute. reflexivity.
Defined.

(** X22.  [read_metadata], and [from_db] with it, on a database that has no
    [_metadata] table or is locked: the failure to prepare the [select] is
    turned into [ReadMetadataError], and the database is as it was. *)
Theorem read_metadata_without_envelope (w : world) :
  tables w !! "_metadata" = None \/ busy w = true ->
  read_metadata w = (Throws missing_metadata, w) /\
  from_db w = (Throws missing_metadata, w).
Proof.
  intros Hmissing.
  assert (Hprepare : exists rc h, sqlite3_prepare_v2 select_metadata_sql w = (rc, h, w)
                                  /\ rc <> 0).
  { cbn [sqlite3_prepare_v2 engine]. unfold prepare.
    change (parse select_metadata_sql) with (Some (Select "_metadata" None)).
    cbv iota. destruct (busy w) eqn:Hbusy.
    - exists SQLITE_BUSY, 1%positive. split; [reflexivity | discriminate].
    - destruct Hmissing as [Htable | Hlocked]; [| discriminate].
      cbn [compiles]. rewrite Htable.
      exists SQLITE_ERROR, 1%positive. split; [reflexivity | discriminate]. }
  destruct Hprepare as (rc & h & Hprepare & Hrc).
  assert (Hread : read_metadata w = (Throws missing_metadata, w)).
  { unfold read_metadata, try_catch, with_Statement. unfold bind at 1.
    unfold Statement_ctor. rewrite Hprepare. unfold nonzero.
    destruct (Z.eqb_spec rc 0); [contradiction |]. reflexivity. }
  split; [exact Hread |].
  unfold from_db, bind. rewrite Hread. reflexivity.
Qed.

(** [test_no_md_db] *)
Lemma read_metadata_without_envelope_witness :
  read_metadata from_memory = (Throws missing_metadata, from_memory) /\
  from_db from_memory = (Throws missing_metadata, from_memory).
Proof.
  apply (read_metadata_without_envelope from_memory).
  left. vm_compute. reflexivity.
Defined.

Ltac read_text_column Hcol :=
  unfold column_text; cbn [sqlite3_column_text engine stmt_];
  rewrite Hcol by (vm_compute; discriminate); reflexivity.

(** The select statement of [read_metadata], prepared and stepped onto the
    first row of the table: the engine state is named [w1], the handle [h]. *)
Ltac on_first_row w h w1 Htable Hbusy Hstmt1 Hcol :=
  unfold read_metadata, try_catch, with_Statement, finally;
  unfold bind at 1;
  rewrite (Statement_ctor_ok select_metadata_sql (Select "_metadata" None) w eq_refl Hbusy)
    by (cbn [compiles]; rewrite Htable; reflexivity);
  let Htables0 := fresh "Htables" in
  let Hbusy0 := fresh "Hbusy" in
  let Hstmt0 := fresh "Hstmt" in
  let w0 := fresh "w" in
  let E := fresh "E" in
  destruct (new_stmt_facts (Select "_metadata" None) w) as (Htables0 & Hbusy0 & Hstmt0);
  rewrite <- Htables0 in Htable; rewrite <- Hbusy0 in Hbusy; clear Htables0 Hbusy0;
  remember (next_stmt w) as h eqn:E; clear E;
  remember (new_stmt (Select "_metadata" None) w) as w0 eqn:E; clear E w;
  unfold bind at 1;
  rewrite (step_fetch_row h w0 _ "_metadata" None _ O _ Hstmt0 Hbusy eq_refl Htable
             (or_introl (conj eq_refl eq_refl)) eq_refl);
  cbn [StepResult_eqb negb project rows columns prog params];
  match goal with
  | |- context [set_stmt h ?v w0] =>
      destruct (set_stmt_facts h v w0) as (Htables0 & Hbusy0 & Hstmt1);
      rewrite <- Htables0 in Htable; rewrite <- Hbusy0 in Hbusy;
      clear Htables0 Hbusy0 Hstmt0;
      remember (set_stmt h v w0) as w1 eqn:E; clear E w0
  end;
  pose proof (fun column Hcolumn =>
                column_value_on_row h w1 _ 1 _ column Hstmt1 eq_refl Hcolumn) as Hcol;
  rewrite bind_read; cbn [sqlite3_table_column_metadata engine];
  unfold table_column_metadata; rewrite Htable; cbn [columns].

(** X23.  An envelope written by a later version of the library is
    refused: when the table has a [metadata_version] column and the first
    column of its first row, read as a [std::uint32_t], is above the
    current version, [read_metadata] throws [ReadMetadataError]. *)
Theorem read_metadata_future_version (w : world) (cols : list string) (mv : Z)
    (rest : list value) (more : list (list value)) :
  tables w !! "_metadata"
  = Some {| columns := cols; rows := (VInteger mv :: rest) :: more |} ->
  busy w = false ->
  has_column "metadata_version" cols = true ->
  metadata_version < to_uint32 (to_int mv) ->
  fst (read_metadata w) = Throws (ReadMetadataError "Metadata version in the future").
Proof.
  intros Htable Hbusy Hcolumn Hfuture.
  on_first_row w h w1 Htable Hbusy Hstmt1 Hcol.
  rewrite Hcolumn. change (SQLITE_OK =? SQLITE_OK) with true. cbv iota.
  assert (Hversion : column_u32 {| stmt_ := h |} 0 w1 = to_uint32 (to_int mv)).
  { unfold column_u32. cbn [sqlite3_column_int engine stmt_].
    rewrite Hcol by (vm_compute; discriminate). reflexivity. }
  rewrite bind_assoc, bind_read. rewrite !Hversion.
  rewrite (out_of_range_gtb _ _ Hfuture). reflexivity.
Qed.

Lemma read_metadata_future_version_witness :
  fst (read_metadata
         (envelope_db metadata_columns
            [[VInteger 2; VInteger 42; VText "2.0.0"; VText "TestMetaDataWriter";
              VText "2.0.0"; VText "Tests version 2.0.0"; VInteger 42424242]]))
  = Throws (ReadMetadataError "Metadata version in the future").
Proof.
  apply (read_metadata_future_version _ metadata_columns 2
           [VInteger 42; VText "2.0.0"; VText "TestMetaDataWriter"; VText "2.0.0";
            VText "Tests version 2.0.0"; VInteger 42424242] nil).
  - vm_compute. reflexivity.
  - reflexivity.
  - reflexivity.
  - vm_compute. reflexivity.
Defined.

(** X24.  A [_metadata] table without row is refused by [read_metadata]
    as ill-formed. *)
Theorem read_metadata_without_row (w : world) (cols : list string) :
  tables w !! "_metadata" = Some {| columns := cols; rows := nil |} ->
  busy w = false ->
  fst (read_metadata w) = Throws (ReadMetadataError "Ill-formed metadata: no metadata entry").
Proof.
  intros Htable Hbusy.
  unfold read_metadata, try_catch, with_Statement, finally.
  unfold bind at 1.
  rewrite (Statement_ctor_ok select_metadata_sql (Select "_metadata" None) w eq_refl Hbusy)
    by (cbn [compiles]; rewrite Htable; reflexivity).
  destruct (new_stmt_facts (Select "_metadata" None) w) as (Htables0 & Hbusy0 & Hstmt0).
  rewrite <- Htables0 in Htable. rewrite <- Hbusy0 in Hbusy.
  unfold bind at 1.
  rewrite (step_fetch_done (next_stmt w) _ _ "_metadata" None _ O Hstmt0 Hbusy eq_refl Htable
             (or_introl (conj eq_refl eq_refl)) eq_refl).
  reflexivity.
Qed.

Lemma read_metadata_without_row_witness :
  fst (read_metadata (envelope_db metadata_columns nil))
  = Throws (ReadMetadataError "Ill-formed metadata: no metadata entry").
Proof.
  apply (read_metadata_without_row _ metadata_columns).
  - vm_compute. reflexivity.
  - reflexivity.
Defined.

(** X25.  A [_metadata] table of the current schema with more than one
    row is refused by [read_metadata] as ill-formed, once the first row was
    read. *)
Theorem read_metadata_several_rows (w : world) (t gd : Z) (fv tn tv ti : string)
    (second : list value) (more : list (list value)) :
  tables w !! "_metadata"
  = Some {| columns := metadata_columns;
            rows := [VInteger (to_int metadata_version); VInteger t; VText fv; VText tn;
                     VText tv; VText ti; VInteger gd] :: second :: more |} ->
  busy w = false ->
  fst (read_metadata w)
  = Throws (ReadMetadataError "Ill-formed metadata: multiple metadata entries").
Proof.
  intros Htable Hbusy.
  on_first_row w h w1 Htable Hbusy Hstmt1 Hcol.
  change (has_column "metadata_version" metadata_columns) with true.
  cbv iota. change (SQLITE_OK =? SQLITE_OK) with true. cbv iota.
  assert (Hversion : column_u32 {| stmt_ := h |} 0 w1 = metadata_version).
  { unfold column_u32. cbn [sqlite3_column_int engine stmt_].
    rewrite Hcol by (vm_compute; discriminate). reflexivity. }
  rewrite bind_assoc, bind_read. rewrite !Hversion.
  change (metadata_version >? metadata_version) with false. cbv iota.
  rewrite bind_ret. cbn [fst snd].
  rewrite bind_read.
  rewrite (bind_read_outcome _ _ _ (c_str fv)) by read_text_column Hcol.
  rewrite (bind_read_outcome _ _ _ (c_str tn)) by read_text_column Hcol.
  change (metadata_version >=? 1) with true. cbv iota.
  rewrite bind_assoc.
  rewrite (bind_read_outcome _ _ _ (c_str tv)) by read_text_column Hcol.
  rewrite bind_ret. cbn [fst snd].
  rewrite (bind_read_outcome _ _ _ (c_str ti)) by read_text_column Hcol.
  rewrite bind_read.
  unfold bind at 1.
  rewrite (step_fetch_row h w1 _ "_metadata" None _ 1%nat second Hstmt1 Hbusy eq_refl Htable
             (or_intror (ex_intro _ _ eq_refl)) eq_refl).
  reflexivity.
Qed.

Lemma read_metadata_several_rows_witness :
  fst (read_metadata
         (envelope_db metadata_columns [envelope_row dummy_md; envelope_row dummy_md_2]))
  = Throws (ReadMetadataError "Ill-formed metadata: multiple metadata entries").
Proof.
  apply (read_metadata_several_rows _ (to_int 42) (to_int64 42424242) "1.0.0-dummy"
           "TestMetaDataWriter" "1.0.0" "Tests version 1.0.0"
           (envelope_row dummy_md_2) nil).
  - vm_compute. reflexivity.
  - reflexivity.
Defined.

(** X26.  The schema is told from the table, the layout of the row from
    the version stored in it.  On a table of the current schema whose row
    stores version 0, [read_metadata] succeeds and reads the row with the
    legacy layout, one column late: [tool_version] is the legacy constant,
    [tool_info] is the text of the [tool_version] column, and
    [generation_date] the integer the engine converts the text of the
    [tool_info] column to. *)
Theorem read_metadata_version_zero_shifts (w : world) (t gd : Z) (fv tn tv ti : string) :
  tables w !! "_metadata"
  = Some {| columns := metadata_columns;
            rows := [[VInteger 0; VInteger t; VText fv; VText tn; VText tv; VText ti;
                      VInteger gd]] |} ->
  busy w = false ->
  fst (read_metadata w)
  = Returns {| version := 0;
               metadata :=
                 {| type_ := to_uint32 (to_int t); format_version_ := c_str fv;
                    tool_name_ := c_str tn; tool_version_ := "1.0.0-prerelease";
                    tool_info_ := c_str tv;
                    generation_date_ := to_uint64 (integer_of_text ti) |} |}.
Proof.
  intros Htable Hbusy.
  on_first_row w h w1 Htable Hbusy Hstmt1 Hcol.
  change (has_column "metadata_version" metadata_columns) with true.
  cbv iota. change (SQLITE_OK =? SQLITE_OK) with true. cbv iota.
  assert (Hversion : column_u32 {| stmt_ := h |} 0 w1 = 0).
  { unfold column_u32. cbn [sqlite3_column_int engine stmt_].
    rewrite Hcol by (vm_compute; discriminate). reflexivity. }
  rewrite bind_assoc, bind_read. rewrite !Hversion.
  change (0 >? metadata_version) with false. cbv iota.
  rewrite bind_ret. cbn [fst snd].
  rewrite bind_read.
  rewrite (bind_read_outcome _ _ _ (c_str fv)) by read_text_column Hcol.
  rewrite (bind_read_outcome _ _ _ (c_str tn)) by read_text_column Hcol.
  change (0 >=? 1) with false. cbv iota.
  rewrite bind_ret. cbn [fst snd].
  rewrite (bind_read_outcome _ _ _ (c_str tv)) by read_text_column Hcol.
  rewrite bind_read.
  unfold bind at 1.
  rewrite (step_fetch_done h w1 _ "_metadata" None _ 1%nat Hstmt1 Hbusy eq_refl Htable
             (or_intror (ex_intro _ _ eq_refl)) eq_refl).
  cbn [StepResult_eqb negb]. unfold ret. cbn [fst].
  unfold column_u32, column_u64. cbn [sqlite3_column_int sqlite3_column_int64 engine stmt_].
  rewrite !Hcol by (vm_compute; discriminate).
  reflexivity.
Qed.

Lemma read_metadata_version_zero_shifts_witness :
  fst (read_metadata
         (envelope_db metadata_columns
            [[VInteger 0; VInteger 42; VText "1.0.0-dummy"; VText "TestMetaDataWriter";
              VText "1.0.0"; VText "Tests version 1.0.0"; VInteger 42424242]]))
  = Returns {| version := 0;
               metadata :=
                 {| type_ := to_uint32 (to_int 42); format_version_ := c_str "1.0.0-dummy";
                    tool_name_ := c_str "TestMetaDataWriter";
                    tool_version_ := "1.0.0-prerelease";
                    tool_info_ := c_str "1.0.0";
                    generation_date_ :=
                      to_uint64 (integer_of_text "Tests version 1.0.0") |} |}.
Proof.
  apply (read_metadata_version_zero_shifts _ 42 42424242 "1.0.0-dummy"
           "TestMetaDataWriter" "1.0.0" "Tests version 1.0.0").
  - vm_compute. reflexivity.
  - reflexivity.
Defined.


End EnvelopeFailures.

(* ------------------------------------------------------------------ *)
(** ** Reading the envelope changes nothing *)

Section Keeps.
Context {S : Type}.

Lemma keeps_ret {A : Type} (I : S -> Prop) (a : A) : keeps I (@ret S A a).
Proof. intros s Hs. exact Hs. Qed.

Lemma keeps_throw {A : Type} (I : S -> Prop) (e : exception) : keeps I (@throw S A e).
Proof. intros s Hs. exact Hs. Qed.

Lemma keeps_read {A : Type} (I : S -> Prop) (f : S -> A) : keeps I (read f).
Proof. intros s Hs. exact Hs. Qed.

Lemma keeps_read_outcome {A : Type} (I : S -> Prop) (f : S -> outcome A) :
  keeps I (read_outcome f).
Proof. intros s Hs. exact Hs. Qed.

Lemma keeps_bind {A B : Type} (I : S -> Prop) (m : St S A) (k : A -> St S B) :
  keeps I m -> (forall a, keeps I (k a)) -> keeps I (let* x := m in k x).
Proof.
  intros Hm Hk s Hs. unfold bind. specialize (Hm s Hs).
  destruct (m s) as [[a | e |] s']; cbn [snd] in *; [apply Hk |..]; exact Hm.
Qed.

End Keeps.

Section ReadOnly.
Import RefEngine RefEngineFacts Scenario.

Lemma keeps_step_selecting (w0 : world) (h : positive) :
  keeps (selecting w0 h) (step {| stmt_ := h |}).
Proof.
  intros w (Htables & Hbusy & v & name & cols & Hstmts & Hprog).
  assert (Hrc : forall (rc : Z) (w' : world),
             snd ((if rc =? SQLITE_ROW then ret Row
                   else if rc =? SQLITE_DONE then ret Done
                   else if rc =? SQLITE_BUSY
                   then throw (DatabaseBusy ("Database busy: " ++ sqlite3_errstr rc))
                   else if rc =? SQLITE_MISUSE
                   then throw (logic_error ("Statement misuse: " ++ sqlite3_errstr rc))
                   else throw (DatabaseError ("Database error: " ++ sqlite3_errstr rc))) w')
             = w').
  { intros rc w'. repeat (destruct (rc =? _); [reflexivity |]). reflexivity. }
  unfold step, bind, call. cbn [sqlite3_step engine stmt_].
  destruct (step_stmt h w) as [rc w'] eqn:Hstep. rewrite Hrc.
  unfold step_stmt in Hstep. rewrite Hstmts, lookup_insert_eq in Hstep.
  assert (Hset : forall v' : vdbe,
             prog v' = Select name cols -> selecting w0 h (set_stmt h v' w)).
  { intros v' Hv'. split; [exact Htables |]. split; [exact Hbusy |].
    exists v', name, cols. split; [| exact Hv'].
    cbn [stmts set_stmt]. rewrite Hstmts. apply insert_insert_eq. }
  assert (Hsame : selecting w0 h w).
  { split; [exact Htables |]. split; [exact Hbusy |]. exists v, name, cols. auto. }
  clear Hbusy. destruct (busy w).
  { injection Hstep as _ <-. apply Hset. exact Hprog. }
  destruct (pc v) as [| next row |].
  - rewrite Hprog in Hstep. unfold fetch in Hstep. rewrite Hprog in Hstep.
    destruct (tables w !! name) as [t |]; [destruct (rows t !! O) |];
      injection Hstep as _ <-; apply Hset; reflexivity.
  - unfold fetch in Hstep. rewrite Hprog in Hstep.
    destruct (tables w !! name) as [t |]; [destruct (rows t !! next) |];
      injection Hstep as _ <-; apply Hset; reflexivity.
  - injection Hstep as _ <-. exact Hsame.
Qed.

(** A block that declares a statement for [select * from _metadata] and
    keeps [selecting] while it runs leaves the tables and the lock as they
    were, and no statement behind unless it ends undefined. *)
Lemma with_Statement_select_leaves {A : Type} (body : Statement -> St world A) (w : world) :
  (forall stmt, keeps (selecting w (stmt_ stmt)) (body stmt)) ->
  tables (snd (with_Statement select_metadata_sql body w)) = tables w /\
  busy (snd (with_Statement select_metadata_sql body w)) = busy w /\
  (stmts w !! next_stmt w = None ->
   fst (with_Statement select_metadata_sql body w) <> Undefined ->
   stmts (snd (with_Statement select_metadata_sql body w)) = stmts w).
Proof.
  intros Hbody. unfold with_Statement, bind, Statement_ctor.
  cbn [sqlite3_prepare_v2 engine]. unfold prepare.
  change (parse select_metadata_sql) with (Some (Select "_metadata" None)).
  cbv iota.
  destruct (busy w) eqn:Hbusy; [repeat split; auto |].
  destruct (compiles (Select "_metadata" None) (tables w)); [| repeat split; auto].
  change (nonzero SQLITE_OK) with false. cbv iota.
  pose proof (Hbody {| stmt_ := next_stmt w |} (new_stmt (Select "_metadata" None) w))
    as Hkept.
  unfold finally.
  destruct (body {| stmt_ := next_stmt w |} (new_stmt (Select "_metadata" None) w))
    as [r w'] eqn:Hrun.
  cbn [stmt_ snd] in Hkept.
  destruct Hkept as (Htables & Hbusy' & v & name & cols & Hstmts & Hprog).
  { split; [reflexivity |]. split; [reflexivity |]. eexists _, _, _.
    split; reflexivity. }
  cbn [busy tables new_stmt] in Hbusy', Htables.
  destruct (Statement_dtor_facts {| stmt_ := next_stmt w |} w') as [Htables2 Hbusy2].
  assert (Hdtor : stmts w !! next_stmt w = None ->
                  stmts (Statement_dtor {| stmt_ := next_stmt w |} w') = stmts w).
  { intros Hfresh. unfold Statement_dtor. cbn [sqlite3_finalize engine stmt_].
    unfold finalize. rewrite Hstmts, lookup_insert_eq. cbn [snd drop_stmt stmts].
    rewrite Hstmts, delete_insert_eq. apply delete_id. exact Hfresh. }
  destruct r as [a | e |]; cbn [fst snd].
  - split; [congruence |]. split; [congruence |]. intros Hfresh _. exact (Hdtor Hfresh).
  - split; [congruence |]. split; [congruence |]. intros Hfresh _. exact (Hdtor Hfresh).
  - split; [congruence |]. split; [congruence |]. intros _ Hdefined.
    exfalso. apply Hdefined. reflexivity.
Qed.

(** X27.  [read_metadata], and [from_db] with it, only reads: however it
    ends, the tables and the lock of the database are as they were; and
    unless it ends undefined, the statement it prepared is finalized, so
    that the statements of the connection are as they were too. *)
Theorem read_metadata_leaves_database (w : world) :
  tables (snd (read_metadata w)) = tables w /\
  busy (snd (read_metadata w)) = busy w /\
  tables (snd (from_db w)) = tables w /\
  (stmts w !! next_stmt w = None -> fst (read_metadata w) <> Undefined ->
   stmts (snd (read_metadata w)) = stmts w).
Proof.
  assert (Hcatch : forall (A : Type) (m : St world A) catches handler (s : world),
             snd (try_catch m catches handler s) = snd (m s) /\
             (fst (m s) = Undefined -> fst (try_catch m catches handler s) = Undefined)).
  { intros A m catches handler s. unfold try_catch.
    destruct (m s) as [[a | e |] s']; [split; auto | | split; auto].
    destruct (catches e); split; auto; discriminate. }
  assert (Hread : tables (snd (read_metadata w)) = tables w /\
                  busy (snd (read_metadata w)) = busy w /\
                  (stmts w !! next_stmt w = None -> fst (read_metadata w) <> Undefined ->
                   stmts (snd (read_metadata w)) = stmts w)).
  { unfold read_metadata.
    match goal with
    | |- context [try_catch (with_Statement _ ?body) ?c ?e w] =>
        destruct (Hcatch _ (with_Statement select_metadata_sql body) c e w)
          as [Hstate Hundefined];
        destruct (with_Statement_select_leaves body w) as (Htables & Hbusy & Hstmts)
    end.
    { intros [h]. cbn [stmt_].
      apply keeps_bind; [apply keeps_step_selecting |]. intros r.
      destruct (negb (StepResult_eqb r Row)); [apply keeps_throw |].
      apply keeps_bind; [apply keeps_read |]. intros found.
      apply keeps_bind.
      { destruct (found =? SQLITE_OK); [| apply keeps_ret].
        apply keeps_bind; [apply keeps_read |]. intros v.
        destruct (v >? metadata_version); [apply keeps_throw | apply keeps_ret]. }
      intros versioned. cbv zeta.
      apply keeps_bind; [apply keeps_read |]. intros md_type.
      apply keeps_bind; [apply keeps_read_outcome |]. intros fv.
      apply keeps_bind; [apply keeps_read_outcome |]. intros tn.
      apply keeps_bind.
      { destruct (fst versioned >=? 1); [| apply keeps_ret].
        apply keeps_bind; [apply keeps_read_outcome |]. intros tv. apply keeps_ret. }
      intros tvc.
      apply keeps_bind; [apply keeps_read_outcome |]. intros ti.
      apply keeps_bind; [apply keeps_read |]. intros gd.
      apply keeps_bind; [apply keeps_step_selecting |]. intros r'.
      destruct (negb (StepResult_eqb r' Done)); [apply keeps_throw | apply keeps_ret]. }
    rewrite Hstate. split; [exact Htables |]. split; [exact Hbusy |].
    intros Hfresh Hdefined. apply Hstmts; [exact Hfresh |].
    intros Hun. apply Hdefined. apply Hundefined. exact Hun. }
  destruct Hread as (Htables & Hbusy & Hstmts).
  split; [exact Htables |]. split; [exact Hbusy |]. split; [| exact Hstmts].
  unfold from_db, bind. destruct (read_metadata w) as [[a | e |] w']; exact Htables.
Qed.

(** The database of [test_open_reopen], read again. *)
Lemma read_metadata_leaves_database_witness :
  tables (snd (read_metadata resource_db)) = tables resource_db /\
  stmts (snd (read_metadata resource_db)) = stmts resource_db.
Proof.
  destruct (read_metadata_leaves_database resource_db) as (Htables & _ & _ & Hstmts).
  split; [exact Htables |].
  apply Hstmts.
  - vm_compute. reflexivity.
  - vm_compute. discriminate.
Defined.

End ReadOnly.

(* ------------------------------------------------------------------ *)
(** ** Converting, updating and opening again *)

Section EnvelopeLifeCycle.
Import RefEngine RefEngineFacts Scenario.








End EnvelopeLifeCycle.
